(** * LoopPhones: the analysis core and its React client

    A shallow embedding of the TypeScript client of the LoopPhones
    platform (the API client [apiService.ts], the grading scanner, the
    product passport and the telemetry dashboard) and of the analysis core
    the specification describes (telemetry store, analysis orchestrator,
    lifecycle state machine and event ledger).

    The Python backend that hosts the analysis core is not part of the
    sources at hand; the definitions of the modules [Telemetry],
    [Lifecycle] and [Orchestrator] are therefore written from the
    specification and say so in their doc comments.  Everything else is
    read off the TypeScript sources. *)

From Stdlib Require Import ZArith QArith String List Bool Lia.
From Stdlib Require Import Decimal DecimalString DecimalNat Sorted.
From stdpp Require Import gmap strings list.
Import ListNotations.

Set Warnings "-register-all".

Local Open Scope Z_scope.

(* ================================================================== *)
(** * Part I: definitions                                              *)
(* ================================================================== *)

(** ** The fragment of JavaScript the client relies on *)

Module Js.

(** Run-time values.  Everything the client receives comes out of
    [res.json()], so numbers are the finite numbers a JSON text denotes;
    the client only copies them and tests them for falsiness, it never
    computes with them, which is why a rational stands for each. *)
Inductive value : Type :=
| VUndefined
| VNull
| VBool (b : bool)
| VNum (q : Q)
| VStr (s : string)
| VArr (items : list value)
| VObj (fields : list (string * value)).

(** What a rejected promise or a [throw] carries.  [JsError arg] is
    [new Error(arg)]: its message is [arg] coerced to a string, which is
    [s] itself when [arg] is [VStr s]. *)
Inductive thrown : Type :=
| JsError (arg : value)
| TypeError
| SyntaxError
| NetworkFailure.

(** An awaited computation either yields a value or throws. *)
Inductive completion (A : Type) : Type :=
| Return (a : A)
| Throw (e : thrown).
Arguments Return {A} a.
Arguments Throw {A} e.

(** ToBoolean. *)
Definition truthy (v : value) : bool :=
  match v with
  | VUndefined | VNull => false
  | VBool b => b
  | VNum q => negb (Qeq_bool q 0)
  | VStr s => negb (String.eqb s "")
  | VArr _ | VObj _ => true
  end.

(** [a || b] *)
Definition or (a b : value) : value := if truthy a then a else b.

(** Own property of an object literal; a missing key reads [undefined]. *)
Fixpoint field (k : string) (fs : list (string * value)) : value :=
  match fs with
  | [] => VUndefined
  | (k', v) :: rest => if String.eqb k k' then v else field k rest
  end.

Definition nullish (v : value) : bool :=
  match v with
  | VUndefined | VNull => true
  | _ => false
  end.

(** [o.k] for the property names the client reads ([detail], [grading],
    [grade], [confidence], [defects], [suggested_action],
    [price_estimate], [estimated_price], [id], [model], [serialNumber],
    [status]): none of them is a built-in member of a string, a number, a
    boolean or an array, so on those the read gives [undefined]; on
    [null] and [undefined] it throws a TypeError. *)
Definition get (o : value) (k : string) : completion value :=
  match o with
  | VUndefined | VNull => Throw TypeError
  | VObj fs => Return (field k fs)
  | _ => Return VUndefined
  end.

(** [o?.k] *)
Definition get_opt (o : value) (k : string) : value :=
  match o with
  | VObj fs => field k fs
  | _ => VUndefined
  end.

(** Template-literal rendering of a boolean and of a non-negative
    integer. *)
Definition bool_toString (b : bool) : string :=
  if b then "true" else "false".

Definition nat_toString (n : nat) : string :=
  NilZero.string_of_uint (Nat.to_uint n).

(** [s.substring(start)] *)
Definition substring_from (start : nat) (s : string) : string :=
  String.substring start (String.length s - start)%nat s.

(** [s.replace(pat, rep)] with a string pattern: the first occurrence of
    [pat] in [s], if there is one, is replaced by [rep].  The replacement
    strings the client uses hold no [$] pattern. *)
Fixpoint replace_first (pat rep s : string) : string :=
  match s with
  | EmptyString => if String.prefix pat s then rep else s
  | String c rest =>
      if String.prefix pat s
      then rep +:+ substring_from (String.length pat) s
      else String c (replace_first pat rep rest)
  end.

(** [pat] occurs in [s] at some position. *)
Fixpoint occurs (pat s : string) : bool :=
  match s with
  | EmptyString => String.prefix pat s
  | String c rest => String.prefix pat s || occurs pat rest
  end.

(** [name in o], for an object literal. *)
Fixpoint has_key (k : string) (fs : list (string * value)) : bool :=
  match fs with
  | [] => false
  | (k', _) :: rest => String.eqb k k' || has_key k rest
  end.

Section StringConversion.
(** Left open: Number::toString, the shortest decimal text that reads
    back as the same double. *)
Variable numberToString : Q -> string.

(** ToString, on values that came out of [JSON.parse]; [None] when the
    conversion throws a TypeError.  An array is its elements joined by
    commas, [null] and [undefined] elements giving the empty string; a
    plain object is ['[object Object]'], unless it has a member of its own
    named [toString], which hides the inherited method with something that
    cannot be called. *)
Fixpoint toString (v : value) : option string :=
  match v with
  | VUndefined => Some "undefined"
  | VNull => Some "null"
  | VBool b => Some (bool_toString b)
  | VNum q => Some (numberToString q)
  | VStr s => Some s
  | VArr items =>
      (fix join (l : list value) : option string :=
         match l with
         | [] => Some ""
         | x :: rest =>
             match match x with
                   | VUndefined | VNull => Some ""
                   | _ => toString x
                   end with
             | None => None
             | Some sx =>
                 match rest with
                 | [] => Some sx
                 | _ :: _ =>
                     match join rest with
                     | None => None
                     | Some sr => Some (sx +:+ "," +:+ sr)
                     end
                 end
             end
         end) items
  | VObj fs => if has_key "toString" fs then None else Some "[object Object]"
  end.

(** The message of the Error a [throw new Error(arg)] raises: [arg]
    converted to a string.  [None] when that conversion itself throws, and
    for the errors the engine raises, whose text is the engine's own. *)
Definition error_message (e : thrown) : option string :=
  match e with
  | JsError arg => toString arg
  | _ => None
  end.

End StringConversion.

End Js.

(** ** services/apiService.ts *)

Module ApiService.
Import Js.

(** [RequestInit], as far as the client fills it in.  [body] holds the
    value handed to [JSON.stringify]. *)
Record RequestInit : Type := {
  method : option string;
  headers : list (string * string);
  body : option value
}.

Definition no_options : RequestInit :=
  {| method := None; headers := []; body := None |}.

(** What [fetch] is called with. *)
Record Request : Type := {
  url : string;
  config : RequestInit
}.

(** What [fetch] resolves to: [res.ok], [res.status] and the outcome of
    [res.json()], which is [None] when the body is not a JSON text (the
    promise then rejects with a SyntaxError). *)
Record Response : Type := {
  ok : bool;
  status : nat;
  json : option value
}.

(** [`HTTP ${res.status}`] *)
Definition http_status (res : Response) : string :=
  "HTTP " +:+ nat_toString (status res).

(** The request [request] sends: the options with the Content-Type header
    put in front of the caller's headers (a later entry of the same name
    wins, as with the object spread). *)
Definition build (baseUrl endpoint : string) (options : RequestInit) : Request :=
  {| url := baseUrl +:+ endpoint;
     config := {| method := method options;
                  headers := ("Content-Type", "application/json") :: headers options;
                  body := body options |} |}.

(** The part of [request] after [await fetch(url, config)]. *)
Definition settle (fetched : completion Response) : completion value :=
  match fetched with
  | Throw e => Throw e
  | Return res =>
      if negb (ok res) then
        let error :=
          match json res with
          | Some v => v
          | None => VObj [("detail", VStr (http_status res))]
          end in
        match get error "detail" with
        | Throw e => Throw e
        | Return detail => Throw (JsError (or detail (VStr (http_status res))))
        end
      else
        match json res with
        | Some v => Return v
        | None => Throw SyntaxError
        end
  end.

Section Client.
(** The network, and the base URL the service was constructed with. *)
Variable fetch : Request -> completion Response.
Variable baseUrl : string.

Definition request (endpoint : string) (options : RequestInit) : completion value :=
  settle (fetch (build baseUrl endpoint options)).

Definition getDevice (deviceId : string) : completion value :=
  request ("/devices/" +:+ deviceId) no_options.

Definition getPassportByDevice (deviceId : string) : completion value :=
  request ("/passports/device/" +:+ deviceId) no_options.

Definition gradeDevice (req : value) : completion value :=
  request "/grading" {| method := Some "POST"; headers := []; body := Some req |}.

(** [new URLSearchParams({include_grading, include_pricing}).toString()] *)
Definition analyze_params (includeGrading includePricing : bool) : string :=
  "include_grading=" +:+ bool_toString includeGrading
    +:+ "&include_pricing=" +:+ bool_toString includePricing.

(** [imageUrls ? { image_urls: imageUrls } : null], then
    [body ? JSON.stringify(body) : undefined]; an array, even an empty
    one, is truthy. *)
Definition analyze_body (imageUrls : option (list string)) : option value :=
  match imageUrls with
  | Some urls => Some (VObj [("image_urls", VArr (map VStr urls))])
  | None => None
  end.

Definition analyze_endpoint (deviceId : string) (includeGrading includePricing : bool) : string :=
  "/analysis/" +:+ deviceId +:+ "?" +:+ analyze_params includeGrading includePricing.

(** The request [analyzeDevice] sends.  The two flags are optional
    arguments that default to [true]. *)
Definition analyzeDevice_request (deviceId : string)
    (includeGrading includePricing : option bool)
    (imageUrls : option (list string)) : Request :=
  build baseUrl
    (analyze_endpoint deviceId (default true includeGrading) (default true includePricing))
    {| method := Some "POST"; headers := []; body := analyze_body imageUrls |}.

Definition analyzeDevice (deviceId : string)
    (includeGrading includePricing : option bool)
    (imageUrls : option (list string)) : completion value :=
  settle (fetch (analyzeDevice_request deviceId includeGrading includePricing imageUrls)).

(** [{ method: 'POST', body: JSON.stringify(payload) }] *)
Definition post (payload : value) : RequestInit :=
  {| method := Some "POST"; headers := []; body := Some payload |}.

(** [getTelemetryHistory(deviceId, days = 30)]; [days] counts days: a
    whole number, as everywhere the client passes it, and of a size that
    JavaScript prints digit by digit (below 10^21). *)
Definition getTelemetryHistory (deviceId : string) (days : option nat) : completion value :=
  request ("/telemetry/" +:+ deviceId +:+ "?days=" +:+ nat_toString (default 30%nat days))
    no_options.

Definition listDevices : completion value :=
  request "/devices" no_options.

Definition registerDevice (device : value) : completion value :=
  request "/devices" (post device).

Definition ingestTelemetry (data : value) : completion value :=
  request "/telemetry" (post data).

Definition createPassport (deviceId ownerAddress : string) : completion value :=
  request "/passports"
    (post (VObj [("device_id", VStr deviceId); ("owner_address", VStr ownerAddress)])).

Definition getStats : completion value :=
  request "/stats" no_options.

(** The calls the service offers through [request], with their arguments
    after the defaults were filled in. *)
Inductive call : Type :=
| GetTelemetryHistory (deviceId : string) (days : nat)
| GetDevice (deviceId : string)
| ListDevices
| RegisterDevice (device : value)
| IngestTelemetry (data : value)
| AnalyzeDevice (deviceId : string) (includeGrading includePricing : bool)
    (imageUrls : option (list string))
| GradeDevice (req : value)
| GetPassportByDevice (deviceId : string)
| CreatePassport (deviceId ownerAddress : string)
| GetStats.

(** The endpoint and the options each call hands to [request]. *)
Definition endpoint_of (c : call) : string :=
  match c with
  | GetTelemetryHistory deviceId days =>
      "/telemetry/" +:+ deviceId +:+ "?days=" +:+ nat_toString days
  | GetDevice deviceId => "/devices/" +:+ deviceId
  | ListDevices => "/devices"
  | RegisterDevice _ => "/devices"
  | IngestTelemetry _ => "/telemetry"
  | AnalyzeDevice deviceId g p _ => analyze_endpoint deviceId g p
  | GradeDevice _ => "/grading"
  | GetPassportByDevice deviceId => "/passports/device/" +:+ deviceId
  | CreatePassport _ _ => "/passports"
  | GetStats => "/stats"
  end.

Definition options_of (c : call) : RequestInit :=
  match c with
  | RegisterDevice v | IngestTelemetry v | GradeDevice v => post v
  | CreatePassport deviceId ownerAddress =>
      post (VObj [("device_id", VStr deviceId); ("owner_address", VStr ownerAddress)])
  | AnalyzeDevice _ _ _ imageUrls =>
      {| method := Some "POST"; headers := []; body := analyze_body imageUrls |}
  | _ => no_options
  end.

(** What goes to [fetch] for a call, and how the call settles. *)
Definition sent (c : call) : Request := build baseUrl (endpoint_of c) (options_of c).

Definition perform (c : call) : completion value := settle (fetch (sent c)).

(** [this.baseUrl.replace('/api/v1', '')] followed by [/health]. *)
Definition health_url : string := replace_first "/api/v1" "" baseUrl +:+ "/health".

(** What [healthCheck] hands to [fetch]: the URL alone, no init. *)
Definition health_request : Request := {| url := health_url; config := no_options |}.

(** A call without the arguments that travel in the body. *)
Inductive route : Type :=
| TelemetryHistoryRoute (deviceId : string) (days : nat)
| DeviceRoute (deviceId : string)
| DeviceListRoute
| RegisterRoute
| IngestRoute
| AnalysisRoute (deviceId : string) (includeGrading includePricing : bool)
| GradingRoute
| PassportByDeviceRoute (deviceId : string)
| CreatePassportRoute
| StatsRoute.

Definition route_of (c : call) : route :=
  match c with
  | GetTelemetryHistory d n => TelemetryHistoryRoute d n
  | GetDevice d => DeviceRoute d
  | ListDevices => DeviceListRoute
  | RegisterDevice _ => RegisterRoute
  | IngestTelemetry _ => IngestRoute
  | AnalyzeDevice d g p _ => AnalysisRoute d g p
  | GradeDevice _ => GradingRoute
  | GetPassportByDevice d => PassportByDeviceRoute d
  | CreatePassport _ _ => CreatePassportRoute
  | GetStats => StatsRoute
  end.

(** The URL, the method and the headers of a request: what [fetch] is
    handed besides the body. *)
Definition request_line (r : Request) : string * option string * list (string * string) :=
  (url r, method (config r), headers (config r)).

(** [healthCheck], which goes to [fetch] directly, without [request]. *)
Definition healthCheck : completion value :=
  match fetch {| url := health_url; config := no_options |} with
  | Throw e => Throw e
  | Return r =>
      if negb (ok r)
      then Throw (JsError (VStr ("Health check failed: " +:+ nat_toString (status r))))
      else match json r with
           | Some v => Return v
           | None => Throw SyntaxError
           end
  end.

End Client.

(** The options of the specification's [analyze(deviceId, options)]: one
    flag per capability and the optional fresh images. *)
Record AnalyzeOptions : Type := {
  opt_health : bool;
  opt_grading : bool;
  opt_pricing : bool;
  opt_images : option (list string)
}.

(** Passing those options through [analyzeDevice]: grading, pricing and
    the images each have a parameter to go to; the health flag has none. *)
Definition analyze_with (baseUrl deviceId : string) (o : AnalyzeOptions) : Request :=
  analyzeDevice_request baseUrl deviceId
    (Some (opt_grading o)) (Some (opt_pricing o)) (opt_images o).

End ApiService.

(** ** types.ts *)

Module Types.

Inductive DeviceGrade : Type := MINT | EXCELLENT | GOOD | FAIR | RECYCLE.

(** The string each member of the enum stands for. *)
Definition grade_string (g : DeviceGrade) : string :=
  match g with
  | MINT => "Mint"
  | EXCELLENT => "Excellent"
  | GOOD => "Good"
  | FAIR => "Fair"
  | RECYCLE => "Recycle"
  end.

Definition all_grades : list DeviceGrade := [MINT; EXCELLENT; GOOD; FAIR; RECYCLE].

(** Position on the ordinal scale Mint > Excellent > Good > Fair > Recycle. *)
Definition grade_rank (g : DeviceGrade) : nat :=
  match g with
  | MINT => 4
  | EXCELLENT => 3
  | GOOD => 2
  | FAIR => 1
  | RECYCLE => 0
  end.

(** A run-time value is on the five-point scale when it is the string of
    one of the enum's members. *)
Definition on_scale (v : Js.value) : bool :=
  match v with
  | Js.VStr s => existsb (fun g => String.eqb s (grade_string g)) all_grades
  | _ => false
  end.

Record RepairRecord : Type := {
  date : string;
  component : string;
  technician : string;
  impactOnValue : Z
}.

End Types.

(** ** components/GradingScanner.tsx *)

Module GradingScanner.
Import Js.

(** The component's [GradingResult].  TypeScript's field types are erased
    at run time and the backend's reply is typed [any], so each field holds
    whatever value the expression that fills it produces. *)
Record GradingResult : Type := {
  grade : value;
  confidence : value;
  defects : value;
  suggestedAction : value;
  estimatedValue : value
}.

(** The component state [captureAndAnalyze] reads and writes. *)
Record State : Type := {
  stream : bool;
  isScanning : bool;
  result : option GradingResult;
  error : option string
}.

(** The object literal passed to [setResult]; it is only evaluated when
    [gradingResult?.grading] is truthy, so no property read in it throws. *)
Definition result_of (gradingResult : value) : GradingResult :=
  let grading := get_opt gradingResult "grading" in
  {| grade := or (get_opt grading "grade") (VStr "Good");
     confidence := or (get_opt grading "confidence") (VNum (85 # 100));
     defects := or (get_opt grading "defects") (VArr []);
     suggestedAction := or (get_opt grading "suggested_action") (VStr "Resell");
     estimatedValue :=
       or (get_opt (get_opt gradingResult "price_estimate") "estimated_price")
          (VNum (980 # 1)) |}.

(** [if (gradingResult?.grading) setResult({...})]: the result the reply
    leads to, if any. *)
Definition analysed (gradingResult : value) : option GradingResult :=
  if truthy (get_opt gradingResult "grading")
  then Some (result_of gradingResult)
  else None.

(** [captureAndAnalyze].  [refs] says whether the video and canvas refs are
    set, [ctx] whether the canvas gave a 2d context, [reply] is the settled
    [apiService.gradeDevice] call. *)
Definition captureAndAnalyze (refs ctx : bool) (reply : completion value)
    (st : State) : State :=
  if negb refs then st
  else if negb ctx then
    {| stream := stream st; isScanning := true; result := None; error := error st |}
  else
    match reply with
    | Return gradingResult =>
        {| stream := false; isScanning := false;
           result := analysed gradingResult; error := error st |}
    | Throw _ =>
        {| stream := stream st; isScanning := false; result := None;
           error := Some "Backend grading failed. Ensure backend is running on port 8000." |}
    end.

(** [startCamera]; [granted] says whether [getUserMedia] resolved. *)
Definition startCamera (granted : bool) (st : State) : State :=
  if granted then
    {| stream := true; isScanning := isScanning st; result := result st; error := None |}
  else
    {| stream := stream st; isScanning := isScanning st; result := result st;
       error := Some "Camera permission denied or not available." |}.

(** [stopCamera] *)
Definition stopCamera (st : State) : State :=
  {| stream := false; isScanning := isScanning st; result := result st;
     error := error st |}.

(** The handler of the Scan Again button: [setResult(null); startCamera()]. *)
Definition scanAgain (granted : bool) (st : State) : State :=
  startCamera granted
    {| stream := stream st; isScanning := isScanning st; result := None;
       error := error st |}.

(** The state the component mounts with. *)
Definition initial : State :=
  {| stream := false; isScanning := false; result := None; error := None |}.

(** Which of the four blocks of the returned JSX are rendered: the
    Initialize Scanner card ([!stream && !result]), the video with its
    buttons ([stream]), the result card ([result]) and the error banner
    ([error]). *)
Record Panels : Type := {
  start_card : bool;
  video : bool;
  result_card : bool;
  error_banner : bool
}.

Definition isSome {A : Type} (o : option A) : bool :=
  match o with Some _ => true | None => false end.

Definition render (st : State) : Panels :=
  {| start_card := negb (stream st) && negb (isSome (result st));
     video := stream st;
     result_card := isSome (result st);
     error_banner := isSome (error st) |}.

(** What the user can click, with what the environment answers: Start
    Grading (on the Initialize Scanner card), Analyze Condition and Cancel
    (under the video), Scan Again (on the result card). *)
Inductive action : Type :=
| StartGrading (granted : bool)
| AnalyzeCondition (ctx : bool) (reply : completion value)
| Cancel
| ScanAgain (granted : bool).

(** A button can be clicked when its block is rendered; Analyze Condition
    is disabled while [isScanning]. *)
Definition clickable (st : State) (a : action) : bool :=
  match a with
  | StartGrading _ => start_card (render st)
  | AnalyzeCondition _ _ => video (render st) && negb (isScanning st)
  | Cancel => video (render st)
  | ScanAgain _ => result_card (render st)
  end.

(** One click, its handler run to completion.  The video element, and so
    [videoRef.current], is there exactly while [stream] is set; the canvas
    is always rendered. *)
Definition click (st : State) (a : action) : State :=
  match a with
  | StartGrading granted => startCamera granted st
  | AnalyzeCondition ctx reply => captureAndAnalyze (stream st) ctx reply st
  | Cancel => stopCamera st
  | ScanAgain granted => scanAgain granted st
  end.

(** A session: clicks one after the other, each on a button that is
    there; [None] when a click has no button to land on. *)
Fixpoint session (st : State) (clicks : list action) : option State :=
  match clicks with
  | [] => Some st
  | a :: rest => if clickable st a then session (click st a) rest else None
  end.

End GradingScanner.

(** ** components/ProductPassport.tsx *)

Module ProductPassport.
Import Js.

Record PassportData : Type := {
  id : value;
  model : value;
  serialNumber : value;
  passportId : string;
  currentGrade : value;
  currentValue : value;
  predictedValueDropDate : string;
  carbonOffset : Q;
  status : value;
  repairHistory : list Types.RepairRecord
}.

Record State : Type := {
  device : option PassportData;
  loading : bool;
  error : option string
}.

(** [`SOL_DPP_${deviceId.substring(Math.max(0, deviceId.length - 7))}`];
    the subtraction on [nat] stops at zero, which is the [Math.max]. *)
Definition passport_id (deviceId : string) : string :=
  "SOL_DPP_" +:+ substring_from (String.length deviceId - 7)%nat deviceId.

Definition fixed_repair_history : list Types.RepairRecord :=
  [ {| Types.date := "2024-11-12"; Types.component := "Battery Replacement";
       Types.technician := "LoopFix Certified"; Types.impactOnValue := 40 |};
    {| Types.date := "2025-03-05"; Types.component := "Screen Calibration";
       Types.technician := "Automated Bot B3"; Types.impactOnValue := 15 |};
    {| Types.date := "2026-01-20"; Types.component := "Software Optimization";
       Types.technician := "System-Level"; Types.impactOnValue := 5 |} ].

(** [analysisData] after the inner try/catch: [null] when the analysis
    call threw. *)
Definition analysisData_of (analysis : completion value) : value :=
  match analysis with
  | Return v => v
  | Throw _ => VNull
  end.

(** The [deviceInfo] literal. *)
Definition deviceInfo (deviceId : string) (deviceData analysisData : value) : PassportData :=
  {| id := or (get_opt deviceData "id") (VStr deviceId);
     model := or (get_opt deviceData "model") (VStr "Unknown Model");
     serialNumber := or (get_opt deviceData "serialNumber") (VStr "N/A");
     passportId := passport_id deviceId;
     currentGrade :=
       or (get_opt (get_opt analysisData "grading") "grade") (VStr "Not Graded");
     currentValue :=
       or (get_opt (get_opt analysisData "price_estimate") "estimated_price")
          (VNum 0);
     predictedValueDropDate := "2026-06-20";
     carbonOffset := 452 # 10;
     status := or (get_opt deviceData "status") (VStr "unknown");
     repairHistory := fixed_repair_history |}.

Section Fetch.
(** The two calls [fetchDeviceData] makes, as the API client settles them;
    [analyzeDevice] is called with [(deviceId, true, true)]. *)
Variable getDevice : string -> completion value.
Variable analyzeDevice : string -> option bool -> option bool -> option (list string)
                         -> completion value.

(** The state [fetchDeviceData] leaves behind.  [deviceData] is truthy
    where its properties are read, so those reads do not throw. *)
Definition fetchDeviceData (deviceId : string) : State :=
  match getDevice deviceId with
  | Throw _ =>
      {| device := None; loading := false;
         error := Some "Backend connection failed. Register a device and add telemetry data first." |}
  | Return deviceData =>
      if negb (truthy deviceData) then
        {| device := None; loading := false;
           error := Some "Device not found. Register a device first." |}
      else
        let analysisData :=
          analysisData_of (analyzeDevice deviceId (Some true) (Some true) None) in
        {| device := Some (deviceInfo deviceId deviceData analysisData);
           loading := false; error := None |}
  end.

End Fetch.

End ProductPassport.

(** ** components/Dashboard.tsx *)

Module Dashboard.

(** [const latest = history[0]], the element [fetchTelemetryData] takes
    for the most recent snapshot of a non-empty history. *)
Definition latest {A : Type} (history : list A) : option A :=
  nth_error history 0.

Import Js.

Record ChartData : Type := {
  timestamp : string;
  batteryHealth : value;
  thermalEfficiency : value;
  marketValue : Z
}.

Record Metrics : Type := {
  m_batteryHealth : value;
  m_thermalEfficiency : value;
  m_marketValue : Z;
  m_circularYield : Q
}.

Record State : Type := {
  telemetryData : list ChartData;
  metrics : Metrics;
  loading : bool;
  error : option string;
  connected : bool
}.

Definition no_metrics : Metrics :=
  {| m_batteryHealth := VNum 0; m_thermalEfficiency := VNum 0;
     m_marketValue := 0; m_circularYield := 0 |}.

(** [history.length === 0]: an empty array, or an object whose own
    [length] is the number zero. *)
Definition length_is_zero (history : value) : bool :=
  match history with
  | VArr [] => true
  | VObj fs => match field "length" fs with
               | VNum q => Qeq_bool q 0
               | _ => false
               end
  | _ => false
  end.

Section Fetch.
(** Left open: the month label
    [new Date(x).toLocaleDateString('en-US', { month: 'short' })], which
    depends on the locale data and the time zone, and the floating-point
    expression [100 - t / 1.5]. *)
Variable monthLabel : value -> string.
Variable thermal : value -> value.

(** The callback of [history.map]: reading [item.timestamp] throws on a
    [null] item. *)
Definition chartPoint (item : value) (index : nat) : completion ChartData :=
  match get item "timestamp" with
  | Throw e => Throw e
  | Return ts =>
      Return {| timestamp := monthLabel ts;
                batteryHealth := or (get_opt item "battery_health_percentage") (VNum 0);
                thermalEfficiency := thermal (or (get_opt item "battery_temperature") (VNum 0));
                marketValue := 1200 - Z.of_nat index * 50 |}
  end.

(** [history.map((item, index) => ...)] from [index] on. *)
Fixpoint chartFrom (index : nat) (items : list value) : completion (list ChartData) :=
  match items with
  | [] => Return []
  | item :: rest =>
      match chartPoint item index with
      | Throw e => Throw e
      | Return point =>
          match chartFrom (S index) rest with
          | Throw e => Throw e
          | Return points => Return (point :: points)
          end
      end
  end.

Definition no_data (conn : bool) : State :=
  {| telemetryData := []; metrics := no_metrics; loading := false;
     error := Some "No telemetry data available for this device. Scan or ingest data first.";
     connected := conn |}.

Definition failed (conn : bool) : State :=
  {| telemetryData := []; metrics := no_metrics; loading := false;
     error := Some "Backend connection failed. No telemetry data to display.";
     connected := conn |}.

(** [fetchTelemetryData], given the settled
    [apiService.getTelemetryHistory(deviceId, 30)].  Every path writes the
    chart, the metrics, the error and the loading flag; [connected] is not
    touched.  A truthy reply that is no array has no [map] to call. *)
Definition fetchTelemetryData (reply : completion value) (st : State) : State :=
  match reply with
  | Throw _ => failed (connected st)
  | Return history =>
      if negb (truthy history) || length_is_zero history then no_data (connected st)
      else
        match history with
        | VArr (first :: rest) =>
            match chartFrom 0 (first :: rest) with
            | Throw _ => failed (connected st)
            | Return chartData =>
                {| telemetryData := chartData;
                   metrics :=
                     {| m_batteryHealth :=
                          or (get_opt first "battery_health_percentage") (VNum 0);
                        m_thermalEfficiency :=
                          thermal (or (get_opt first "battery_temperature") (VNum 0));
                        m_marketValue := 1200 - Z.of_nat (length (first :: rest)) * 50;
                        m_circularYield := 124 # 10 |};
                   loading := false; error := None; connected := connected st |}
            end
        | _ => failed (connected st)
        end
  end.

(** [checkConnection], given the settled [apiService.healthCheck()]. *)
Definition checkConnection (health : completion value) (st : State) : State :=
  {| telemetryData := telemetryData st; metrics := metrics st;
     loading := loading st; error := error st;
     connected := match health with Return _ => true | Throw _ => false end |}.

End Fetch.

(** The Buy-Back Value card: its change line and its status. *)
Definition buyBackChange (marketValue : Z) : string :=
  if marketValue <? 1000 then "-7.5% drop alert" else "Stable".

Inductive cardStatus : Type := good | warning | danger.

Definition buyBackStatus (marketValue : Z) : cardStatus :=
  if marketValue <? 1000 then warning else good.

End Dashboard.

(** ** The telemetry store (specification, section 4.1) *)

Module Telemetry.

(** Modelled from the spec: the backend's telemetry snapshot is missing
    from the sources.  Timestamps are seconds; readings are integers. *)
Record TelemetrySnapshot : Type := {
  device : string;
  timestamp : Z;
  battery_cycle_count : Z;
  battery_health_percentage : Z;
  temperature : Z;
  thermal_events : Z;
  cpu_throttling_count : Z
}.

(** Modelled from the spec: the two ways the missing [record] fails. *)
Inductive record_error : Type := DuplicateTimestamp | InvalidReading.

(** Modelled from the spec: the missing range check of [record]: no
    negative temperature (Kelvin-normalised), a health percentage within
    0..100, no negative count. *)
Definition plausible (s : TelemetrySnapshot) : bool :=
  (0 <=? temperature s) && (0 <=? battery_health_percentage s)
  && (battery_health_percentage s <=? 100) && (0 <=? battery_cycle_count s)
  && (0 <=? thermal_events s) && (0 <=? cpu_throttling_count s).

(** Modelled from the spec: the uniqueness key of the missing store, a
    device together with a timestamp. *)
Definition same_key (a b : TelemetrySnapshot) : bool :=
  String.eqb (device a) (device b) && (timestamp a =? timestamp b).

(** Modelled from the spec: the missing [record(snapshot)]; the store is
    append-only and keeps the snapshots in the order they were recorded. *)
Definition record (s : TelemetrySnapshot) (store : list TelemetrySnapshot)
    : record_error + list TelemetrySnapshot :=
  if negb (plausible s) then inl InvalidReading
  else if existsb (same_key s) store then inl DuplicateTimestamp
  else inr (store ++ [s]).

(** Modelled from the spec: the states of the missing store, those that
    come about by recording snapshots one after the other, starting from
    the empty store. *)
Inductive recorded : list TelemetrySnapshot -> Prop :=
| recorded_nil : recorded []
| recorded_snoc s store store' :
    recorded store -> record s store = inr store' -> recorded store'.

Definition seconds_per_day : Z := 86400.

(** Modelled from the spec: the missing window filter: the snapshot
    belongs to [deviceId] and lies in the trailing [days] before [now]. *)
Definition in_window (deviceId : string) (now days : Z) (s : TelemetrySnapshot) : bool :=
  String.eqb (device s) deviceId
  && (now - days * seconds_per_day <? timestamp s) && (timestamp s <=? now).

(** Modelled from the spec: the missing ordering by timestamp.  The
    specification does not name the direction; it is most recent first
    here, the end at which the dashboard reads the latest snapshot. *)
Fixpoint insert_by_time (s : TelemetrySnapshot) (l : list TelemetrySnapshot)
    : list TelemetrySnapshot :=
  match l with
  | [] => [s]
  | x :: rest =>
      if timestamp x <=? timestamp s then s :: l
      else x :: insert_by_time s rest
  end.

(** Modelled from the spec: the missing ordering of a whole series. *)
Definition order_by_time (l : list TelemetrySnapshot) : list TelemetrySnapshot :=
  fold_right insert_by_time [] l.

(** Most recent first, without ties. *)
Definition newer_first (a b : TelemetrySnapshot) : Prop := timestamp b < timestamp a.

(** The store never holds two snapshots of one device with one timestamp. *)
Definition unique_keys (store : list TelemetrySnapshot) : Prop :=
  NoDup (map (fun s => (device s, timestamp s)) store).

(** Modelled from the spec: what the missing [window] answers. *)
Inductive window_result : Type :=
| InsufficientHistory
| Window (snapshots : list TelemetrySnapshot).

Section Configured.
(** The configured minimum number of snapshots a window must hold. *)
Variable min_count : nat.

(** Modelled from the spec: the missing [window(deviceId, days)], read at
    time [now]. *)
Definition window (store : list TelemetrySnapshot) (deviceId : string)
    (now days : Z) : window_result :=
  let snapshots := order_by_time (List.filter (in_window deviceId now days) store) in
  if (length snapshots <? min_count)%nat then InsufficientHistory
  else Window snapshots.

End Configured.

End Telemetry.

(** ** The lifecycle state machine and event ledger (specification, 4.4) *)

Module Lifecycle.

(** Modelled from the spec: the statuses of a device (section 3). *)
Inductive status : Type :=
| Active | UnderRepair | Refurbished | PartsHarvested | Recycled | Retired.

(** Modelled from the spec: the kinds of lifecycle event (section 3). *)
Inductive event_kind : Type :=
| Repair | Refurbish | HarvestParts | Recycle | Resale.

(** Modelled from the spec: the ways the missing [appendEvent] fails;
    [UnknownDevice] answers a device id the store does not hold. *)
Inductive append_error : Type := InvalidTransition | UnknownDevice.

(** Modelled from the spec: the missing ledger entry (section 3). *)
Record LifecycleEvent : Type := {
  ev_device : string;
  ev_kind : event_kind;
  ev_timestamp : Z;
  ev_metadata : string
}.

(** Modelled from the spec: the missing derived profile (section 3). *)
Record CircularityProfile : Type := {
  score : Z;
  carbon_offset : Z;
  repairs : nat;
  refurbishments : nat;
  harvests : nat;
  recycles : nat;
  resales : nat
}.

(** Modelled from the spec: the backend's device record is missing from
    the sources.  [created] is in seconds; [baseline] is the
    manufacturing, transport and usage baseline in kg CO2e. *)
Record Device : Type := {
  dev_id : string;
  dev_model : string;
  dev_status : status;
  created : Z;
  baseline : Z
}.

(** Modelled from the spec: what the missing state machine keeps per
    device: the device, its append-only ledger (oldest event first) and
    the profile derived from it. *)
Record Tracked : Type := {
  tr_device : Device;
  ledger : list LifecycleEvent;
  profile : CircularityProfile
}.

(** Modelled from the spec: the missing transition table.  The edges are
    those of section 4.4: active -> under_repair -> active,
    active -> refurbished, active|refurbished -> parts_harvested,
    active|refurbished|parts_harvested -> recycled, recycled -> retired.
    The specification names the states of each edge but not the event on
    it.  Its scenario has a refurbishment follow a single repair, so a
    repair event records a repair that has completed: it takes an active
    device through under_repair back to active, and a device found under
    repair back to active as well.  Every other event leads to the state
    named after it; a recycle reported for a recycled device retires it,
    and a resale keeps a device that is in circulation (active or
    refurbished) where it is.  Nothing leaves [Retired]. *)
Definition transition (s : status) (k : event_kind) : option status :=
  match s, k with
  | (Active | UnderRepair), Repair => Some Active
  | Active, Refurbish => Some Refurbished
  | (Active | Refurbished), HarvestParts => Some PartsHarvested
  | (Active | Refurbished | PartsHarvested), Recycle => Some Recycled
  | Recycled, Recycle => Some Retired
  | (Active | Refurbished), Resale => Some s
  | _, _ => None
  end.

(** Modelled from the spec: the missing clamp of the score. *)
Definition clamp (lo hi x : Z) : Z := Z.max lo (Z.min hi x).

Definition seconds_per_year : Z := 31536000.

(** Modelled from the spec: the missing age computation: full years
    between creation and the time of computation. *)
Definition full_years (created now : Z) : Z := (now - created) / seconds_per_year.

(** Modelled from the spec: the counts of each kind, which the missing
    fold gathers in one pass over the ledger. *)
Record Counts : Type := {
  n_repair : nat;
  n_refurbish : nat;
  n_harvest : nat;
  n_recycle : nat;
  n_resale : nat
}.

Definition no_counts : Counts :=
  {| n_repair := 0; n_refurbish := 0; n_harvest := 0; n_recycle := 0; n_resale := 0 |}.

Definition tally (c : Counts) (e : LifecycleEvent) : Counts :=
  match ev_kind e with
  | Repair =>
      {| n_repair := S (n_repair c); n_refurbish := n_refurbish c;
         n_harvest := n_harvest c; n_recycle := n_recycle c; n_resale := n_resale c |}
  | Refurbish =>
      {| n_repair := n_repair c; n_refurbish := S (n_refurbish c);
         n_harvest := n_harvest c; n_recycle := n_recycle c; n_resale := n_resale c |}
  | HarvestParts =>
      {| n_repair := n_repair c; n_refurbish := n_refurbish c;
         n_harvest := S (n_harvest c); n_recycle := n_recycle c; n_resale := n_resale c |}
  | Recycle =>
      {| n_repair := n_repair c; n_refurbish := n_refurbish c;
         n_harvest := n_harvest c; n_recycle := S (n_recycle c); n_resale := n_resale c |}
  | Resale =>
      {| n_repair := n_repair c; n_refurbish := n_refurbish c;
         n_harvest := n_harvest c; n_recycle := n_recycle c; n_resale := S (n_resale c) |}
  end.

Definition count_events (l : list LifecycleEvent) : Counts :=
  fold_left tally l no_counts.

(** Modelled from the spec: the missing score formula: base 70, 5 per
    repair, 10 per refurbishment, 8 per parts-harvest, 15 once if the
    ledger holds a recycle, 1 per full year of age, clamped to 0..100. *)
Definition score_of (c : Counts) (years : Z) : Z :=
  clamp 0 100
    (70 + 5 * Z.of_nat (n_repair c) + 10 * Z.of_nat (n_refurbish c)
     + 8 * Z.of_nat (n_harvest c)
     + (if (0 <? n_recycle c)%nat then 15 else 0)
     + years).

(** Modelled from the spec: the missing carbon formula: the fixed offsets
    of the events (repair -5, refurbishment -30, parts-harvest -15,
    recycle -20) minus the device's baseline. *)
Definition carbon_of (c : Counts) (base : Z) : Z :=
  (- 5) * Z.of_nat (n_repair c) + (- 30) * Z.of_nat (n_refurbish c)
  + (- 15) * Z.of_nat (n_harvest c) + (- 20) * Z.of_nat (n_recycle c) - base.

(** Modelled from the spec: the missing recomputation of the profile by a
    fold over the full ledger. *)
Definition recompute (l : list LifecycleEvent) (years base : Z) : CircularityProfile :=
  let c := count_events l in
  {| score := score_of c years;
     carbon_offset := carbon_of c base;
     repairs := n_repair c;
     refurbishments := n_refurbish c;
     harvests := n_harvest c;
     recycles := n_recycle c;
     resales := n_resale c |}.

Definition with_status (d : Device) (s : status) : Device :=
  {| dev_id := dev_id d; dev_model := dev_model d; dev_status := s;
     created := created d; baseline := baseline d |}.

(** Modelled from the spec: the missing [appendEvent(deviceId, kind,
    metadata)], run at time [now] on the store of tracked devices.  It
    returns the outcome together with the store it leaves behind. *)
Definition appendEvent (store : gmap string Tracked) (deviceId : string)
    (kind : event_kind) (metadata : string) (now : Z)
    : (append_error + CircularityProfile) * gmap string Tracked :=
  match store !! deviceId with
  | None => (inl UnknownDevice, store)
  | Some t =>
      match transition (dev_status (tr_device t)) kind with
      | None => (inl InvalidTransition, store)
      | Some s' =>
          let e := {| ev_device := deviceId; ev_kind := kind;
                      ev_timestamp := now; ev_metadata := metadata |} in
          let l := ledger t ++ [e] in
          let p := recompute l (full_years (created (tr_device t)) now)
                             (baseline (tr_device t)) in
          (inr p,
           <[deviceId := {| tr_device := with_status (tr_device t) s';
                            ledger := l; profile := p |}]> store)
      end
  end.




End Lifecycle.

(** ** The analysis orchestrator (specification, sections 4.2, 4.3, 7) *)

Module Orchestrator.
Import Telemetry.

(** Modelled from the spec: the answers of the three capabilities and
    their fusion (section 3). *)
Record HealthPrediction : Type := {
  rul_days : Z;
  failure_probability : Q;
  degradation_rate : Q
}.

Record GradingResult : Type := {
  grade : Types.DeviceGrade;
  confidence : Q;
  defects : list string
}.

Record PriceEstimate : Type := {
  price : Q;
  confidence_interval : Q * Q
}.

(** Each component is either there or flagged absent. *)
Record FusedAnalysis : Type := {
  health : option HealthPrediction;
  grading : option GradingResult;
  price_estimate : option PriceEstimate
}.

(** Modelled from the spec: the way the missing [analyze] fails. *)
Inductive analyze_error : Type := AllCapabilitiesUnavailable.

(** Modelled from the spec: how one capability settles in one run of the
    missing [analyze]: not asked for, not invoked for lack of a telemetry
    window, unavailable, or answered. *)
Inductive outcome (A : Type) : Type :=
| NotRequested
| NoWindow
| Unavailable
| Succeeded (a : A).
Arguments NotRequested {A}.
Arguments NoWindow {A}.
Arguments Unavailable {A}.
Arguments Succeeded {A} a.

Definition requested {A : Type} (o : outcome A) : bool :=
  match o with NotRequested => false | _ => true end.

Definition unavailable {A : Type} (o : outcome A) : bool :=
  match o with Unavailable => true | _ => false end.

Definition succeeded {A : Type} (o : outcome A) : bool :=
  match o with Succeeded _ => true | _ => false end.

(** The component a settled capability contributes to the fusion. *)
Definition component {A : Type} (o : outcome A) : option A :=
  match o with Succeeded a => Some a | _ => None end.

(** The gateway's answer, [None] standing for [Unavailable]. *)
Definition settled {A : Type} (answer : option A) : outcome A :=
  match answer with Some a => Succeeded a | None => Unavailable end.

Section Gateway.
(** The three capabilities behind the gateway, black boxes that answer or
    are unavailable; the configured minimum count and length of the
    telemetry window the health capability needs. *)
Variable predictHealth : list TelemetrySnapshot -> option HealthPrediction.
Variable gradeDevice : list string -> option GradingResult.
Variable estimatePrice : string -> option PriceEstimate.
Variable min_count : nat.
Variable window_days : Z.

(** Modelled from the spec: the missing health step of [analyze]: pull
    the window if health is requested; on [InsufficientHistory] the
    capability is not invoked and health is marked absent. *)
Definition health_outcome (store : list TelemetrySnapshot) (deviceId : string)
    (o : ApiService.AnalyzeOptions) (now : Z) : outcome HealthPrediction :=
  if ApiService.opt_health o then
    match window min_count store deviceId now window_days with
    | InsufficientHistory => NoWindow
    | Window snapshots => settled (predictHealth snapshots)
    end
  else NotRequested.

(** Modelled from the spec: the missing grading and pricing steps of
    [analyze]. *)
Definition grading_outcome (o : ApiService.AnalyzeOptions) : outcome GradingResult :=
  if ApiService.opt_grading o
  then settled (gradeDevice (default [] (ApiService.opt_images o)))
  else NotRequested.

Definition price_outcome (deviceId : string) (o : ApiService.AnalyzeOptions)
    : outcome PriceEstimate :=
  if ApiService.opt_pricing o then settled (estimatePrice deviceId) else NotRequested.

(** Modelled from the spec: a capability does not stand in the way of
    failing the call when it was not asked for or was unavailable. *)
Definition lost {A : Type} (o : outcome A) : bool :=
  negb (requested o) || unavailable o.

(** Modelled from the spec: the missing [analyze(deviceId, options)], run
    at time [now] over the telemetry store: all selected capabilities
    settle, then the call fails with [AllCapabilitiesUnavailable] if every
    requested capability was unavailable, and otherwise fuses what there
    is. *)
Definition analyze (store : list TelemetrySnapshot) (deviceId : string)
    (o : ApiService.AnalyzeOptions) (now : Z) : analyze_error + FusedAnalysis :=
  let h := health_outcome store deviceId o now in
  let g := grading_outcome o in
  let p := price_outcome deviceId o in
  if lost h && lost g && lost p then inl AllCapabilitiesUnavailable
  else inr {| health := component h; grading := component g;
              price_estimate := component p |}.

End Gateway.

End Orchestrator.

(** ** Sample data *)

Module Samples.
Import Js.

Definition base : string := "http://localhost:8000/api/v1".

Definition device_id : string := "LP-99X-2026-ALPHA".

Definition device_json : value :=
  VObj [("id", VStr device_id); ("model", VStr "Loop Phone 9X");
        ("manufacturer", VStr "Loop"); ("status", VStr "active");
        ("storage_gb", VNum (256 # 1)); ("ram_gb", VNum (8 # 1))].

(** A passport record with the fields the README lists for
    [digital_passports]. *)
Definition passport_json : value :=
  VObj [("device_id", VStr device_id);
        ("mint_address", VStr "7xKXtg2CW87d97TXJSDpbD5jBkheTqA83TZRuJosgAsU");
        ("transaction_hash", VStr "5VERv8NMvzbJMEkV8xnrLkEaWRtSz9CosKDYjCJjBRnb");
        ("circularity_score", VNum (85 # 1));
        ("carbon_footprint_saved", VNum (35 # 1))].

Definition analysis_json : value :=
  VObj [("grading", VObj [("grade", VStr "Excellent"); ("confidence", VNum (91 # 100))]);
        ("price_estimate", VObj [("estimated_price", VNum (640 # 1))])].

(** A backend that knows one device, its passport and its analysis. *)
Definition backend (r : ApiService.Request) : completion ApiService.Response :=
  let u := ApiService.url r in
  if String.eqb u (base +:+ "/devices/" +:+ device_id) then
    Return {| ApiService.ok := true; ApiService.status := 200;
              ApiService.json := Some device_json |}
  else if String.eqb u (base +:+ "/passports/device/" +:+ device_id) then
    Return {| ApiService.ok := true; ApiService.status := 200;
              ApiService.json := Some passport_json |}
  else if String.eqb u (base +:+ ApiService.analyze_endpoint device_id true true) then
    Return {| ApiService.ok := true; ApiService.status := 200;
              ApiService.json := Some analysis_json |}
  else
    Return {| ApiService.ok := false; ApiService.status := 404;
              ApiService.json := Some (VObj [("detail", VStr "Not Found")]) |}.

(** Telemetry: one snapshot of the sample device per day. *)
Definition snapshot_on (day health : Z) : Telemetry.TelemetrySnapshot :=
  {| Telemetry.device := device_id;
     Telemetry.timestamp := day * Telemetry.seconds_per_day;
     Telemetry.battery_cycle_count := 300 + day;
     Telemetry.battery_health_percentage := health;
     Telemetry.temperature := 305;
     Telemetry.thermal_events := 0;
     Telemetry.cpu_throttling_count := 1 |}.

(** Recording a batch of snapshots in the order given; [None] as soon as
    one of them is refused. *)
Fixpoint record_all (batch store : list Telemetry.TelemetrySnapshot)
    : option (list Telemetry.TelemetrySnapshot) :=
  match batch with
  | [] => Some store
  | s :: rest =>
      match Telemetry.record s store with
      | inr store' => record_all rest store'
      | inl _ => None
      end
  end.

(** Ten days of history, not ingested in order. *)
Definition ten_days : list Telemetry.TelemetrySnapshot :=
  [snapshot_on 3 97; snapshot_on 1 99; snapshot_on 2 98; snapshot_on 5 96;
   snapshot_on 4 96; snapshot_on 6 95; snapshot_on 7 95; snapshot_on 10 93;
   snapshot_on 8 94; snapshot_on 9 94].

Definition noon_of_day_10 : Z := 10 * Telemetry.seconds_per_day + 43200.

(** A device tracked by the lifecycle state machine. *)
Definition tracked (s : Lifecycle.status) (kinds : list Lifecycle.event_kind)
    : Lifecycle.Tracked :=
  let l := map (fun k => {| Lifecycle.ev_device := "D1"; Lifecycle.ev_kind := k;
                            Lifecycle.ev_timestamp := 0;
                            Lifecycle.ev_metadata := "" |}) kinds in
  {| Lifecycle.tr_device :=
       {| Lifecycle.dev_id := "D1"; Lifecycle.dev_model := "Loop Phone 9X";
          Lifecycle.dev_status := s; Lifecycle.created := 0;
          Lifecycle.baseline := 0 |};
     Lifecycle.ledger := l;
     Lifecycle.profile := Lifecycle.recompute l 0 0 |}.

(** The sample telemetry store: the ten days recorded into an empty
    store. *)
Definition ten_days_store : list Telemetry.TelemetrySnapshot :=
  default [] (record_all ten_days []).

(** The store of the lifecycle state machine right after the device [D1]
    was registered: active, with an empty ledger. *)
Definition fresh_store : gmap string Lifecycle.Tracked :=
  {[ "D1"%string := tracked Lifecycle.Active [] ]}.

(** The same device after it was recycled and then retired. *)
Definition retired_store : gmap string Lifecycle.Tracked :=
  snd (Lifecycle.appendEvent
         (snd (Lifecycle.appendEvent fresh_store "D1" Lifecycle.Recycle "collected"
                 Lifecycle.seconds_per_year))
         "D1" Lifecycle.Recycle "shredded" (Lifecycle.seconds_per_year + 3600)).

(** The ledger of the specification's scenario. *)
Definition scenario_ledger : list Lifecycle.LifecycleEvent :=
  Lifecycle.ledger
    (tracked Lifecycle.Recycled
       [Lifecycle.Repair; Lifecycle.Refurbish; Lifecycle.Recycle]).

Definition health_only : ApiService.AnalyzeOptions :=
  {| ApiService.opt_health := true; ApiService.opt_grading := false;
     ApiService.opt_pricing := false; ApiService.opt_images := None |}.

Definition everything : ApiService.AnalyzeOptions :=
  {| ApiService.opt_health := true; ApiService.opt_grading := true;
     ApiService.opt_pricing := true; ApiService.opt_images := None |}.

(** The moment the sample device is two years and a hundred days old. *)
Definition two_years_on : Z :=
  2 * Lifecycle.seconds_per_year + 100 * Telemetry.seconds_per_day.

(** A gateway whose health and pricing capabilities answer and whose
    grading capability is unavailable. *)
Definition health_answer (w : list Telemetry.TelemetrySnapshot)
    : option Orchestrator.HealthPrediction :=
  Some {| Orchestrator.rul_days := 400;
          Orchestrator.failure_probability := 5 # 100;
          Orchestrator.degradation_rate := 1 # 100 |}.

Definition grading_down (images : list string) : option Orchestrator.GradingResult :=
  None.

Definition price_answer (deviceId : string) : option Orchestrator.PriceEstimate :=
  Some {| Orchestrator.price := 640 # 1;
          Orchestrator.confidence_interval := (600 # 1, 680 # 1) |}.

Definition price_down (deviceId : string) : option Orchestrator.PriceEstimate := None.

End Samples.

(* ================================================================== *)
(** * Part II: properties                                              *)
(* ================================================================== *)

(** ** JavaScript helpers *)

Section JsFacts.
Import Js.

(** On a truthy value a property read does not throw and agrees with the
    optional read. *)
Lemma get_truthy (v : value) (k : string) :
  truthy v = true -> get v k = Return (get_opt v k).
Proof. destruct v; simpl; intros H; try discriminate; reflexivity. Qed.

Lemma get_not_nullish (v : value) (k : string) :
  nullish v = false -> get v k = Return (get_opt v k).
Proof. destruct v; simpl; intros H; try discriminate; reflexivity. Qed.

Lemma append_inj_l (p x y : string) : p +:+ x = p +:+ y -> x = y.
Proof.
  induction p as [|c p IH]; simpl; intros H.
  - exact H.
  - injection H as H. apply IH, H.
Qed.

Lemma map_VStr_inj (l1 l2 : list string) : map VStr l1 = map VStr l2 -> l1 = l2.
Proof.
  revert l2. induction l1 as [|a l1 IH]; intros [|b l2] H; simpl in H;
    try discriminate; try reflexivity.
  injection H as Ha Hl. f_equal; [exact Ha | apply IH, Hl].
Qed.

End JsFacts.

(** ** The API client *)

Section ApiServiceFacts.
Import Js ApiService.

Lemma analyze_params_inj (g p g' p' : bool) :
  analyze_params g p = analyze_params g' p' -> g = g' /\ p = p'.
Proof.
  destruct g, p, g', p'; simpl; intros H; try discriminate H; split; reflexivity.
Qed.

Lemma analyze_body_inj (i1 i2 : option (list string)) :
  analyze_body i1 = analyze_body i2 -> i1 = i2.
Proof.
  destruct i1 as [l1|], i2 as [l2|]; simpl; intros H; try discriminate H;
    try reflexivity.
  injection H as H. f_equal. apply map_VStr_inj, H.
Qed.

(** C10, as the claim states it, fails three times over.  A response
    whose status is ok but whose body is not a JSON text (a 204 with an
    empty body) does not make [request] return the parsed body: the call
    rejects.  A non-ok body that contains a [detail], but a falsy one
    (here the empty string), does not supply the message: the [||] falls
    back to the status text.  And a [detail] that is not a string (here
    the list of a validation error) is not the message either: the message
    is its conversion to a string. *)
Lemma request_ok_without_json_throws :
  (ok {| ok := true; status := 204; json := None |} = true
   /\ request (fun _ => Return {| ok := true; status := 204; json := None |})
        "http://localhost:8000/api/v1" "/devices/LP-1" no_options
      = Throw SyntaxError)
  /\ request (fun _ => Return {| ok := false; status := 500;
                                 json := Some (VObj [("detail", VStr "")]) |})
       "http://localhost:8000/api/v1" "/stats" no_options
     = Throw (JsError (VStr "HTTP 500"))
  /\ error_message (fun _ => ""%string)
       match request
               (fun _ => Return
                  {| ok := false; status := 422;
                     json := Some (VObj [("detail",
                                          VArr [VObj [("loc", VArr [VStr "body"; VStr "id"]);
                                                      ("msg", VStr "field required");
                                                      ("type", VStr "value_error.missing")]])]) |})
               "http://localhost:8000/api/v1" "/devices" no_options with
       | Throw e => e
       | Return _ => SyntaxError
       end
     = Some "[object Object]"%string.
Proof. split; [split|split]; reflexivity. Qed.

(** A non-ok response whose body is the JSON text [null] makes the read of
    [error.detail] itself throw. *)
Example request_null_body_type_error :
  request (fun _ => Return {| ok := false; status := 500; json := Some VNull |})
    "http://localhost:8000/api/v1" "/stats" no_options
  = Throw TypeError.
Proof. reflexivity. Qed.

(** C10 (amended): whatever response [fetch] resolves to, [request]
    returns a value only when the status is ok and the body parses as JSON,
    and then returns that parsed body; on an ok status with an unparsable
    body it rejects with the parse error; on a non-ok status it never
    returns.  When the non-ok body does not parse, it throws an Error with
    the message ['HTTP <status>']; when the body parses to a value other
    than [null], it throws [new Error(detail || 'HTTP <status>')]: the
    message is ['HTTP <status>'] where the [detail] is missing or falsy,
    and, where the [detail] is truthy and converts to a string, that
    string, which is the [detail] itself if that is a string and
    ['[object Object]'] if it is an object without a member named
    [toString]. *)
Theorem request_settles
    (numberToString : Q -> string)
    (fetch : Request -> completion Response) (baseUrl endpoint : string)
    (options : RequestInit) (res : Response)
    (Hfetch : fetch (build baseUrl endpoint options) = Return res) :
  (forall v, request fetch baseUrl endpoint options = Return v
             <-> ok res = true /\ json res = Some v)
  /\ (ok res = true -> json res = None ->
      request fetch baseUrl endpoint options = Throw SyntaxError)
  /\ (ok res = false -> json res = None ->
      request fetch baseUrl endpoint options
      = Throw (JsError (VStr (http_status res)))
      /\ error_message numberToString (JsError (VStr (http_status res)))
         = Some (http_status res))
  /\ (forall b, ok res = false -> json res = Some b -> nullish b = false ->
      exists e,
        request fetch baseUrl endpoint options = Throw e
        /\ e = JsError (or (get_opt b "detail") (VStr (http_status res)))
        /\ error_message numberToString e
           = (if truthy (get_opt b "detail")
              then toString numberToString (get_opt b "detail")
              else Some (http_status res))
        /\ (forall s, get_opt b "detail" = VStr s -> s <> ""%string ->
                      error_message numberToString e = Some s)
        /\ (forall fs, get_opt b "detail" = VObj fs ->
                       has_key "toString" fs = false ->
                       error_message numberToString e = Some "[object Object]"%string)).
Proof.
  unfold request, settle. rewrite Hfetch.
  destruct res as [o st j]; simpl.
  split; [|split; [|split]].
  - intros v. split.
    + destruct o; simpl.
      * destruct j as [b|]; intros H; [injection H as ->; auto | discriminate].
      * destruct j as [b|]; simpl; [destruct (get b "detail")|]; discriminate.
    + intros [-> ->]. reflexivity.
  - intros -> ->. reflexivity.
  - intros -> ->. split; reflexivity.
  - intros b -> -> Hb. simpl.
    rewrite (get_not_nullish _ _ Hb).
    eexists. split; [reflexivity|]. split; [reflexivity|].
    unfold or. split; [|split].
    + destruct (truthy (get_opt b "detail")); reflexivity.
    + intros s Hs Hne. rewrite Hs. simpl.
      destruct (String.eqb_spec s ""); [contradiction | reflexivity].
    + intros fs Hfs Hkey. rewrite Hfs. simpl. rewrite Hkey. reflexivity.
Qed.

Lemma request_settles_witness :
  error_message (fun _ => ""%string)
    match request (fun _ => Return {| ok := false; status := 404;
                                      json := Some (VObj [("detail", VStr "Device not found")]) |})
            "http://localhost:8000/api/v1" "/devices/LP-1" no_options with
    | Throw e => e
    | Return _ => SyntaxError
    end
  = Some "Device not found"%string.
Proof.
  destruct (proj2 (proj2 (proj2
              (request_settles (fun _ => ""%string)
                 (fun _ => Return {| ok := false; status := 404;
                                     json := Some (VObj [("detail", VStr "Device not found")]) |})
                 "http://localhost:8000/api/v1" "/devices/LP-1" no_options _ eq_refl)))
              _ eq_refl eq_refl eq_refl) as (e & He & _ & _ & Hs & _).
  rewrite He. apply (Hs "Device not found"%string); [reflexivity | discriminate].
Defined.

(** C6, as the claim states it, fails: two option sets that differ only in
    whether health is selected lead [analyzeDevice] to the very same
    request; the client has nothing to select health with. *)
Lemma analyzeDevice_cannot_select_health :
  analyze_with "http://localhost:8000/api/v1" "LP-99X-2026-ALPHA"
    {| opt_health := true; opt_grading := true; opt_pricing := false;
       opt_images := None |}
  = analyze_with "http://localhost:8000/api/v1" "LP-99X-2026-ALPHA"
    {| opt_health := false; opt_grading := true; opt_pricing := false;
       opt_images := None |}.
Proof. reflexivity. Qed.

(** C6 (amended): the request [analyzeDevice] sends selects two of the
    capabilities, grading and pricing, each independently of the other
    (both default to selected), and optionally supplies images: two calls
    for a device send the same request exactly when they agree on the
    grading flag, on the pricing flag and on the images.  Health has no
    selector. *)
Theorem analyzeDevice_selects_grading_and_pricing
    (baseUrl deviceId : string) (o1 o2 : AnalyzeOptions) :
  (analyze_with baseUrl deviceId o1 = analyze_with baseUrl deviceId o2
   <-> opt_grading o1 = opt_grading o2
       /\ opt_pricing o1 = opt_pricing o2
       /\ opt_images o1 = opt_images o2)
  /\ analyzeDevice_request baseUrl deviceId None None (opt_images o1)
     = analyzeDevice_request baseUrl deviceId (Some true) (Some true) (opt_images o1)
  /\ url (analyze_with baseUrl deviceId o1)
     = baseUrl +:+ "/analysis/" +:+ deviceId
       +:+ "?include_grading=" +:+ bool_toString (opt_grading o1)
       +:+ "&include_pricing=" +:+ bool_toString (opt_pricing o1).
Proof.
  split; [|split; reflexivity].
  unfold analyze_with, analyzeDevice_request, build, analyze_endpoint. simpl.
  split.
  - intros H. injection H as Hurl Hbody.
    do 4 apply append_inj_l in Hurl.
    apply analyze_params_inj in Hurl as [Hg Hp].
    apply analyze_body_inj in Hbody. auto.
  - intros (-> & -> & ->). reflexivity.
Qed.

End ApiServiceFacts.

(** ** The grading scanner *)

Section GradingScannerFacts.
Import Js GradingScanner.

(** C3, as the claim states it, fails: a reply that carries a grade but no
    confidence, no suggested action and no price estimate is shown with a
    confidence of 0.85, the action 'Resell' and a value of 980, none of
    which the backend returned. *)
Lemma captureAndAnalyze_fills_in_defaults :
  result (captureAndAnalyze true true
            (Return (VObj [("grading", VObj [("grade", VStr "Fair")])]))
            {| stream := true; isScanning := false; result := None; error := None |})
  = Some {| grade := VStr "Fair";
            confidence := VNum (85 # 100);
            defects := VArr [];
            suggestedAction := VStr "Resell";
            estimatedValue := VNum (980 # 1) |}.
Proof. reflexivity. Qed.

(** C3 (amended): when the backend's reply to the scanner has no (truthy)
    grading component, no result is shown at all; when it has one, every
    field of the result is the backend's value where that is truthy and a
    fixed default where it is missing or falsy: grade 'Good', confidence
    0.85, no defects, suggested action 'Resell', and 980 for a missing
    price estimate. *)
Theorem captureAndAnalyze_result (reply : value) (st : State) :
  let grading := get_opt reply "grading" in
  let shown := result (captureAndAnalyze true true (Return reply) st) in
  (truthy grading = false -> shown = None)
  /\ (truthy grading = true ->
      exists r, shown = Some r
        /\ grade r = or (get_opt grading "grade") (VStr "Good")
        /\ confidence r = or (get_opt grading "confidence") (VNum (85 # 100))
        /\ defects r = or (get_opt grading "defects") (VArr [])
        /\ suggestedAction r = or (get_opt grading "suggested_action") (VStr "Resell")
        /\ estimatedValue r
           = or (get_opt (get_opt reply "price_estimate") "estimated_price")
                (VNum (980 # 1))).
Proof.
  simpl. unfold analysed. split; intros ->.
  - reflexivity.
  - eexists. split; [reflexivity|]. simpl. repeat split.
Qed.

Lemma captureAndAnalyze_result_witness :
  result (captureAndAnalyze true true (Return (VObj [("price_estimate", VNull)]))
            {| stream := true; isScanning := false; result := None; error := None |})
  = None.
Proof.
  exact (proj1 (captureAndAnalyze_result (VObj [("price_estimate", VNull)])
                  {| stream := true; isScanning := false; result := None;
                     error := None |}) eq_refl).
Defined.

(** C8, as the claim states it, fails: a backend that grades with letters
    puts a letter into the [GradingResult]; its [grade] is a plain string
    field, not a [DeviceGrade]. *)
Lemma captureAndAnalyze_letter_grade :
  exists r,
    result (captureAndAnalyze true true
              (Return (VObj [("grading", VObj [("grade", VStr "A");
                                               ("confidence", VNum (92 # 100))])]))
              {| stream := true; isScanning := false; result := None; error := None |})
    = Some r
    /\ grade r = VStr "A"
    /\ Types.on_scale (grade r) = false.
Proof. eexists. split; [reflexivity|]. split; reflexivity. Qed.

(** C8 (amended): the [DeviceGrade] enumeration has exactly the five
    values Mint > Excellent > Good > Fair > Recycle; the grade of a
    [GradingResult] is the backend's grade passed through unchanged when it
    is truthy and 'Good' otherwise, so it lies on the five-point scale
    exactly when the backend's grade is missing (falsy) or is itself one of
    the five. *)
Theorem grade_on_scale (reply : value) (r : GradingResult)
    (Hr : analysed reply = Some r) :
  let g := get_opt (get_opt reply "grading") "grade" in
  grade r = (if truthy g then g else VStr "Good")
  /\ (Types.on_scale (grade r) = true
      <-> truthy g = false \/ Types.on_scale g = true)
  /\ (forall d : Types.DeviceGrade, Types.on_scale (VStr (Types.grade_string d)) = true)
  /\ (forall s, Types.on_scale (VStr s) = true
                <-> exists d, s = Types.grade_string d)
  /\ map Types.grade_string Types.all_grades
     = ["Mint"; "Excellent"; "Good"; "Fair"; "Recycle"]
  /\ map Types.grade_rank Types.all_grades = [4; 3; 2; 1; 0]%nat.
Proof.
  unfold analysed in Hr.
  destruct (truthy (get_opt reply "grading")); [|discriminate].
  injection Hr as <-. simpl.
  set (g := get_opt (get_opt reply "grading") "grade").
  split; [reflexivity|]. split; [|split; [|split; [|split; reflexivity]]].
  - unfold or. destruct (truthy g) eqn:Hg.
    + split; [auto | intros [H|H]; [discriminate | exact H]].
    + split; [auto | reflexivity].
  - intros []; reflexivity.
  - intros s. rewrite !orb_true_iff, !String.eqb_eq. split.
    + intros [H|[H|[H|[H|[H|H]]]]]; subst;
        [exists Types.MINT | exists Types.EXCELLENT | exists Types.GOOD
        | exists Types.FAIR | exists Types.RECYCLE | discriminate]; reflexivity.
    + intros [[] ->]; simpl; auto 6.
Qed.

Lemma grade_on_scale_witness :
  Types.on_scale
    (grade (result_of (VObj [("grading", VObj [("grade", VStr "Mint")])]))) = true.
Proof.
  apply (proj1 (proj2 (grade_on_scale
                         (VObj [("grading", VObj [("grade", VStr "Mint")])])
                         _ eq_refl))).
  right. reflexivity.
Defined.

End GradingScannerFacts.

(** ** The product passport *)

Section ProductPassportFacts.
Import Js ProductPassport.

Lemma substring_all (s : string) : String.substring 0 (String.length s) s = s.
Proof. induction s as [|c s IH]; simpl; [reflexivity | now rewrite IH]. Qed.

(** [s.substring(n)] is the part of [s] after its first [n] characters. *)
Lemma substring_from_suffix (s : string) (n : nat) :
  exists p, s = p +:+ substring_from n s
            /\ String.length p = Nat.min n (String.length s).
Proof.
  unfold substring_from. revert n.
  induction s as [|c s IH]; intros n.
  - exists ""%string. destruct n; simpl; split; reflexivity.
  - destruct n as [|n].
    + exists ""%string. rewrite Nat.sub_0_r, substring_all. split; reflexivity.
    + destruct (IH n) as (p & Hs & Hl).
      exists (String c p). split.
      * simpl.
        change (String c s = String c (p +:+ substring n (String.length s - n) s)).
        rewrite <- Hs. reflexivity.
      * simpl. rewrite Hl. reflexivity.
Qed.

(** C9, as the claim states it, fails: for a device whose minted passport
    the backend serves, the passport shown carries an identifier made from
    the device id and the constant 45.2 as carbon offset; neither is the
    mint address or the carbon figure of the minted record. *)
Lemma fetchDeviceData_ignores_minted_passport :
  exists d,
    ApiService.getPassportByDevice Samples.backend Samples.base Samples.device_id
    = Return Samples.passport_json
    /\ device (fetchDeviceData
                 (ApiService.getDevice Samples.backend Samples.base)
                 (ApiService.analyzeDevice Samples.backend Samples.base)
                 Samples.device_id) = Some d
    /\ passportId d = "SOL_DPP_6-ALPHA"%string
    /\ VStr (passportId d) <> get_opt Samples.passport_json "mint_address"
    /\ carbonOffset d = (452 # 10)%Q
    /\ get_opt Samples.passport_json "carbon_footprint_saved" = VNum (35 # 1).
Proof.
  eexists. split; [reflexivity|]. split; [reflexivity|].
  split; [reflexivity|]. split; [discriminate|]. split; reflexivity.
Qed.

(** C9 (amended): whenever the passport view presents a device, the
    passport identifier it shows is 'SOL_DPP_' followed by the last seven
    characters of the device id (the whole id when it is shorter) and the
    carbon offset it shows is the constant 45.2, whatever the backend
    answered; the view never asks for the minted passport record. *)
Theorem fetchDeviceData_passport_fields
    (getDevice : string -> completion value)
    (analyzeDevice : string -> option bool -> option bool -> option (list string)
                     -> completion value)
    (deviceId : string) (d : PassportData)
    (Hd : device (fetchDeviceData getDevice analyzeDevice deviceId) = Some d) :
  (exists front tail,
      deviceId = front +:+ tail
      /\ String.length front = (String.length deviceId - 7)%nat
      /\ passportId d = "SOL_DPP_" +:+ tail)
  /\ carbonOffset d = (452 # 10)%Q.
Proof.
  unfold fetchDeviceData in Hd.
  destruct (getDevice deviceId) as [deviceData|e]; [|discriminate].
  destruct (truthy deviceData); [|discriminate].
  simpl in Hd. injection Hd as <-. simpl.
  split; [|reflexivity].
  destruct (substring_from_suffix deviceId (String.length deviceId - 7))
    as (front & Hs & Hl).
  exists front, (substring_from (String.length deviceId - 7) deviceId).
  split; [exact Hs|]. split; [|reflexivity].
  rewrite Hl. lia.
Qed.

Lemma fetchDeviceData_passport_fields_witness :
  exists d,
    device (fetchDeviceData
              (ApiService.getDevice Samples.backend Samples.base)
              (ApiService.analyzeDevice Samples.backend Samples.base)
              Samples.device_id) = Some d
    /\ carbonOffset d = (452 # 10)%Q.
Proof.
  eexists. split; [reflexivity|].
  exact (proj2 (fetchDeviceData_passport_fields
                  (ApiService.getDevice Samples.backend Samples.base)
                  (ApiService.analyzeDevice Samples.backend Samples.base)
                  Samples.device_id _ eq_refl)).
Defined.

End ProductPassportFacts.

(** ** The telemetry store *)

Section TelemetryFacts.
Import Telemetry.

Lemma insert_by_time_In (s x : TelemetrySnapshot) (l : list TelemetrySnapshot) :
  In x (insert_by_time s l) <-> x = s \/ In x l.
Proof.
  induction l as [|y l IH]; simpl.
  - intuition.
  - destruct (timestamp y <=? timestamp s); simpl; [intuition|].
    rewrite IH. intuition.
Qed.

Lemma order_by_time_In (x : TelemetrySnapshot) (l : list TelemetrySnapshot) :
  In x (order_by_time l) <-> In x l.
Proof.
  induction l as [|y l IH]; simpl; [tauto|].
  rewrite insert_by_time_In, IH. intuition.
Qed.

Lemma insert_by_time_length (s : TelemetrySnapshot) (l : list TelemetrySnapshot) :
  length (insert_by_time s l) = S (length l).
Proof.
  induction l as [|y l IH]; simpl; [reflexivity|].
  destruct (timestamp y <=? timestamp s); simpl; [reflexivity | now rewrite IH].
Qed.

Lemma order_by_time_length (l : list TelemetrySnapshot) :
  length (order_by_time l) = length l.
Proof.
  induction l as [|y l IH]; simpl; [reflexivity|].
  now rewrite insert_by_time_length, IH.
Qed.

(** Inserting a snapshot whose timestamp is new keeps the order strict. *)
Lemma insert_by_time_sorted (s : TelemetrySnapshot) (l : list TelemetrySnapshot) :
  StronglySorted newer_first l ->
  (forall x, In x l -> timestamp x <> timestamp s) ->
  StronglySorted newer_first (insert_by_time s l).
Proof.
  induction 1 as [|y l Hl IH Hy]; intros Hnew; simpl.
  - constructor; constructor.
  - destruct (Z.leb_spec (timestamp y) (timestamp s)) as [Hle|Hgt].
    + assert (Hlt : timestamp y < timestamp s).
      { specialize (Hnew y (or_introl eq_refl)). lia. }
      constructor; [constructor; assumption|].
      constructor; [exact Hlt|].
      rewrite List.Forall_forall in Hy |- *. intros x Hx.
      specialize (Hy x Hx). unfold newer_first in *. lia.
    + constructor.
      * apply IH. intros x Hx. apply Hnew. right. exact Hx.
      * rewrite List.Forall_forall in Hy |- *. intros x Hx.
        apply (proj1 (insert_by_time_In _ _ _)) in Hx as [->|Hx]; [exact Hgt | auto].
Qed.

Lemma order_by_time_sorted (l : list TelemetrySnapshot) :
  NoDup (map timestamp l) -> StronglySorted newer_first (order_by_time l).
Proof.
  induction l as [|y l IH]; simpl; intros Hnd.
  - constructor.
  - inversion Hnd as [|? ? Hnotin Hnd']; subst.
    apply insert_by_time_sorted; [auto|].
    intros x Hx Heq. apply (proj1 (order_by_time_In _ _)) in Hx.
    apply Hnotin. rewrite <- Heq. apply list_elem_of_In, in_map, Hx.
Qed.

Lemma same_key_eq (a b : TelemetrySnapshot) :
  same_key a b = true <-> (device a, timestamp a) = (device b, timestamp b).
Proof.
  unfold same_key. rewrite andb_true_iff, String.eqb_eq, Z.eqb_eq.
  split; [intros [-> ->]; reflexivity | intros H; injection H; auto].
Qed.

Lemma record_unique_keys (s : TelemetrySnapshot) (store store' : list TelemetrySnapshot) :
  unique_keys store -> record s store = inr store' -> unique_keys store'.
Proof.
  unfold record, unique_keys. intros Hu Hr.
  destruct (plausible s); simpl in Hr; [|discriminate].
  destruct (existsb (same_key s) store) eqn:Hex; [discriminate|].
  injection Hr as <-.
  rewrite map_app. simpl.
  apply NoDup_app. split; [exact Hu|]. split.
  - intros k Hk Hk'. apply list_elem_of_In in Hk, Hk'.
    destruct Hk' as [<-|[]].
    apply in_map_iff in Hk as (x & Hx & Hin).
    assert (existsb (same_key s) store = true) as Hc.
    { apply existsb_exists. exists x. split; [exact Hin|].
      apply same_key_eq. symmetry. exact Hx. }
    congruence.
  - apply NoDup_singleton.
Qed.

Lemma recorded_unique_keys (store : list TelemetrySnapshot) :
  recorded store -> unique_keys store.
Proof.
  induction 1 as [|s store store' _ IH Hr].
  - constructor.
  - eapply record_unique_keys; eauto.
Qed.

(** Within one device's window the timestamps are pairwise distinct. *)
Lemma window_timestamps_distinct (deviceId : string) (now days : Z)
    (store : list TelemetrySnapshot) :
  unique_keys store ->
  NoDup (map timestamp (List.filter (in_window deviceId now days) store)).
Proof.
  unfold unique_keys.
  induction store as [|s store IH]; simpl; intros Hu; [constructor|].
  inversion Hu as [|? ? Hnotin Hu']; subst.
  destruct (in_window deviceId now days s) eqn:Hs; [|auto].
  simpl. constructor; [|auto].
  intros Hin. apply list_elem_of_In in Hin.
  apply in_map_iff in Hin as (x & Hx & Hin).
  apply filter_In in Hin as [Hin Hw].
  apply Hnotin. apply list_elem_of_In. apply in_map_iff. exists x. split; [|exact Hin].
  unfold in_window in Hs, Hw.
  rewrite !andb_true_iff, String.eqb_eq in Hs, Hw.
  destruct Hs as [[-> _] _], Hw as [[-> _] _]. now rewrite Hx.
Qed.

Lemma recorded_all (batch store store' : list TelemetrySnapshot) :
  recorded store -> Samples.record_all batch store = Some store' -> recorded store'.
Proof.
  revert store. induction batch as [|s batch IH]; simpl; intros store Hrec H.
  - injection H as <-. exact Hrec.
  - destruct (record s store) as [e|store1] eqn:Hr; [discriminate|].
    apply (IH store1); [|exact H]. eapply recorded_snoc; eauto.
Qed.

(** The head of a strictly ordered sequence is its most recent element. *)
Lemma newer_first_head (x : TelemetrySnapshot) (l : list TelemetrySnapshot) :
  StronglySorted newer_first (x :: l) ->
  forall y, In y (x :: l) -> timestamp y <= timestamp x.
Proof.
  intros Hs y [<-|Hy]; [lia|].
  apply StronglySorted_inv in Hs as [_ Hall].
  rewrite List.Forall_forall in Hall. specialize (Hall y Hy).
  unfold newer_first in Hall. lia.
Qed.

End TelemetryFacts.

(** ** The lifecycle state machine *)

Section LifecycleFacts.
Import Lifecycle.








(** The repair of the two-year-old sample device scores 70 + 5 + 2. *)
Example repair_scores_77 :
  fst (appendEvent Samples.fresh_store "D1" Repair "battery" Samples.two_years_on)
  = inr {| score := 77; carbon_offset := -5; repairs := 1; refurbishments := 0;
           harvests := 0; recycles := 0; resales := 0 |}.
Proof. reflexivity. Qed.

(** The scenario of the specification: at age 2 the ledger of a repair, a
    refurbishment and a recycle gives a score of 100 (102 before the
    clamp) and an offset of -55 kg against a baseline of 0. *)
Example scenario_D1 :
  recompute Samples.scenario_ledger 2 0
  = {| score := 100; carbon_offset := -55; repairs := 1; refurbishments := 1;
       harvests := 0; recycles := 1; resales := 0 |}.
Proof. reflexivity. Qed.

(** The 15 points for recycling are given once: the retired sample
    device, with two recycle events in its ledger, has 70 + 15 + 1. *)
Example recycle_counts_once :
  (profile <$> Samples.retired_store !! "D1"%string)
  = Some {| score := 86; carbon_offset := -40; repairs := 0; refurbishments := 0;
            harvests := 0; recycles := 2; resales := 0 |}.
Proof. reflexivity. Qed.

(** C4: on a retired device [appendEvent] with kind recycle fails with
    [InvalidTransition] and leaves the store as it was: the ledger of the
    device has the length it had and the device is still retired. *)
Theorem appendEvent_recycle_from_retired
    (store : gmap string Tracked) (deviceId metadata : string) (now : Z)
    (t : Tracked)
    (Hlook : store !! deviceId = Some t)
    (Hretired : dev_status (tr_device t) = Retired) :
  fst (appendEvent store deviceId Recycle metadata now) = inl InvalidTransition
  /\ snd (appendEvent store deviceId Recycle metadata now) = store
  /\ (exists t',
         snd (appendEvent store deviceId Recycle metadata now) !! deviceId = Some t'
         /\ length (ledger t') = length (ledger t)
         /\ dev_status (tr_device t') = Retired).
Proof.
  unfold appendEvent. rewrite Hlook, Hretired. simpl.
  split; [reflexivity|]. split; [reflexivity|].
  exists t. auto.
Qed.

Lemma appendEvent_recycle_from_retired_witness :
  fst (appendEvent Samples.retired_store "D1" Recycle "again" Samples.two_years_on)
  = inl InvalidTransition.
Proof.
  exact (proj1 (appendEvent_recycle_from_retired Samples.retired_store "D1" "again"
                  Samples.two_years_on _ eq_refl eq_refl)).
Defined.

(** Nothing at all leaves [Retired]. *)
Lemma retired_is_terminal (k : event_kind) : transition Retired k = None.
Proof. destruct k; reflexivity. Qed.

End LifecycleFacts.

(** ** The analysis orchestrator *)

Section OrchestratorFacts.
Import Telemetry Orchestrator.

Variable predictHealth : list TelemetrySnapshot -> option HealthPrediction.
Variable gradeDevice : list string -> option GradingResult.
Variable estimatePrice : string -> option PriceEstimate.
Variable min_count : nat.
Variable window_days : Z.

Lemma lost_spec {A : Type} (o : outcome A) :
  lost o = true <-> (requested o = true -> unavailable o = true).
Proof. destruct o; simpl; intuition discriminate. Qed.

Lemma succeeded_not_lost {A : Type} (o : outcome A) :
  succeeded o = true -> lost o = false.
Proof. destruct o; simpl; intros H; try discriminate; reflexivity. Qed.

Lemma unavailable_component {A : Type} (o : outcome A) :
  unavailable o = true -> component o = None.
Proof. destruct o; simpl; intros H; try discriminate; reflexivity. Qed.

(** A capability is requested exactly when the options select it. *)
Lemma requested_by_options (store : list TelemetrySnapshot) (deviceId : string)
    (o : ApiService.AnalyzeOptions) (now : Z) :
  requested (health_outcome predictHealth min_count window_days store deviceId o now)
  = ApiService.opt_health o
  /\ requested (grading_outcome gradeDevice o) = ApiService.opt_grading o
  /\ requested (price_outcome estimatePrice deviceId o) = ApiService.opt_pricing o.
Proof.
  unfold health_outcome, grading_outcome, price_outcome, settled.
  destruct o as [[] [] [] imgs]; simpl;
    repeat match goal with
           | |- context [match ?x with _ => _ end] => destruct x
           end; auto.
Qed.

(** C2: [analyze] fails with [AllCapabilitiesUnavailable] exactly when
    every requested capability was unavailable, that is, when the gateway
    answered [Unavailable] to each call the options asked for; when at
    least one requested capability answered, it returns a fused analysis,
    and in every fused analysis each component is what the gateway
    answered for it: the answer of a capability that succeeded, absent for
    one that was unavailable, not asked for, or (health) left without a
    telemetry window. *)
Theorem analyze_fails_iff_all_unavailable
    (store : list TelemetrySnapshot) (deviceId : string)
    (o : ApiService.AnalyzeOptions) (now : Z) :
  let w := window min_count store deviceId now window_days in
  let images := default [] (ApiService.opt_images o) in
  let run := analyze predictHealth gradeDevice estimatePrice min_count window_days
               store deviceId o now in
  (run = inl AllCapabilitiesUnavailable
   <-> (ApiService.opt_health o = true ->
        exists snapshots, w = Window snapshots /\ predictHealth snapshots = None)
       /\ (ApiService.opt_grading o = true -> gradeDevice images = None)
       /\ (ApiService.opt_pricing o = true -> estimatePrice deviceId = None))
  /\ (forall fused, run = inr fused ->
        health fused
        = (if ApiService.opt_health o
           then match w with
                | Window snapshots => predictHealth snapshots
                | InsufficientHistory => None
                end
           else None)
        /\ grading fused
           = (if ApiService.opt_grading o then gradeDevice images else None)
        /\ price_estimate fused
           = (if ApiService.opt_pricing o then estimatePrice deviceId else None))
  /\ ((exists snapshots a, ApiService.opt_health o = true
                           /\ w = Window snapshots
                           /\ predictHealth snapshots = Some a)
      \/ (exists a, ApiService.opt_grading o = true /\ gradeDevice images = Some a)
      \/ (exists a, ApiService.opt_pricing o = true /\ estimatePrice deviceId = Some a) ->
      exists fused, run = inr fused).
Proof.
  intros w images run. unfold run, analyze, health_outcome, grading_outcome,
    price_outcome. fold w images.
  destruct (ApiService.opt_health o), (ApiService.opt_grading o),
    (ApiService.opt_pricing o);
    destruct w as [|snapshots] eqn:Hw;
    try destruct (predictHealth snapshots) as [hp|] eqn:Hh;
    destruct (gradeDevice images) as [gr|] eqn:Hg;
    destruct (estimatePrice deviceId) as [pe|] eqn:He;
    simpl;
    (split; [split; [try discriminate; intros _; repeat split; intros; eauto; discriminate
                    | try reflexivity;
                      intros (H1 & H2 & H3);
                      try (specialize (H1 eq_refl); destruct H1 as (x & Hx & Hx');
                           try discriminate Hx; injection Hx as <-; congruence);
                      try (specialize (H2 eq_refl); discriminate H2);
                      try (specialize (H3 eq_refl); discriminate H3)]
           | split;
             [ intros fused Hf; try discriminate Hf; injection Hf as <-;
               repeat split; reflexivity
             | intros Hsome; try (eexists; reflexivity);
               destruct Hsome as [(x & a & H1 & H2 & H3)|[(a & H1 & H2)|(a & H1 & H2)]];
               try discriminate; try congruence ] ]).
Qed.

End OrchestratorFacts.

Lemma analyze_fails_iff_all_unavailable_witness :
  Orchestrator.analyze Samples.health_answer Samples.grading_down Samples.price_down 5 30
    Samples.ten_days_store Samples.device_id
    {| ApiService.opt_health := false; ApiService.opt_grading := true;
       ApiService.opt_pricing := true; ApiService.opt_images := None |}
    Samples.noon_of_day_10
  = inl Orchestrator.AllCapabilitiesUnavailable.
Proof.
  apply (proj2 (proj1 (analyze_fails_iff_all_unavailable
                         Samples.health_answer Samples.grading_down
                         Samples.price_down 5 30
                         Samples.ten_days_store Samples.device_id
                         {| ApiService.opt_health := false;
                            ApiService.opt_grading := true;
                            ApiService.opt_pricing := true;
                            ApiService.opt_images := None |}
                         Samples.noon_of_day_10))).
  split; [intros H; discriminate H | split; intros _; reflexivity].
Defined.

(** Degraded fusion: grading unavailable, the other two answer. *)
Example analyze_degraded :
  Orchestrator.analyze Samples.health_answer Samples.grading_down Samples.price_answer 5 30
    Samples.ten_days_store Samples.device_id Samples.everything
    Samples.noon_of_day_10
  = inr {| Orchestrator.health := Samples.health_answer [];
           Orchestrator.grading := None;
           Orchestrator.price_estimate := Samples.price_answer Samples.device_id |}.
Proof. reflexivity. Qed.

Section OrchestratorWindow.
Import Telemetry Orchestrator.

Variable predictHealth : list TelemetrySnapshot -> option HealthPrediction.
Variable gradeDevice : list string -> option GradingResult.
Variable estimatePrice : string -> option PriceEstimate.
Variable min_count : nat.
Variable window_days : Z.

(** C5: when the snapshots in the trailing window are fewer than the
    configured minimum, [window] answers [InsufficientHistory], not a
    shorter sequence; and an [analyze] call that requested health on such a
    device succeeds, with the health component absent. *)
Theorem insufficient_history
    (store : list TelemetrySnapshot) (deviceId : string) (now days : Z) :
  ((length (List.filter (in_window deviceId now days) store) < min_count)%nat ->
   window min_count store deviceId now days = InsufficientHistory)
  /\ ((length (List.filter (in_window deviceId now window_days) store) < min_count)%nat ->
      forall o, ApiService.opt_health o = true ->
        exists fused,
          analyze predictHealth gradeDevice estimatePrice min_count window_days
            store deviceId o now = inr fused
          /\ health fused = None).
Proof.
  assert (Hwin : forall d,
             (length (List.filter (in_window deviceId now d) store) < min_count)%nat ->
             window min_count store deviceId now d = InsufficientHistory).
  { intros d Hlt. unfold window. rewrite order_by_time_length.
    apply Nat.ltb_lt in Hlt. rewrite Hlt. reflexivity. }
  split; [apply Hwin|].
  intros Hlt o Ho. unfold analyze, health_outcome.
  rewrite Ho, (Hwin _ Hlt). simpl.
  eexists. split; reflexivity.
Qed.

End OrchestratorWindow.

Lemma insufficient_history_witness :
  Telemetry.window 30 Samples.ten_days_store Samples.device_id Samples.noon_of_day_10 30
  = Telemetry.InsufficientHistory
  /\ exists fused,
       Orchestrator.analyze Samples.health_answer Samples.grading_down
         Samples.price_down 30 30 Samples.ten_days_store Samples.device_id
         Samples.health_only Samples.noon_of_day_10 = inr fused
       /\ Orchestrator.health fused = None.
Proof.
  split.
  - apply (proj1 (insufficient_history Samples.health_answer Samples.grading_down
                    Samples.price_down 30 30 Samples.ten_days_store Samples.device_id
                    Samples.noon_of_day_10 30)).
    vm_compute. lia.
  - apply (proj2 (insufficient_history Samples.health_answer Samples.grading_down
                    Samples.price_down 30 30 Samples.ten_days_store Samples.device_id
                    Samples.noon_of_day_10 30)).
    + vm_compute. lia.
    + reflexivity.
Defined.

(* ================================================================== *)
(** * Part III: further properties of the client                       *)
(* ================================================================== *)

(** ** The API client, beyond [request] on a given response *)

Section ApiServiceMore.
Import Js ApiService.

Variable fetch : Request -> completion Response.
Variable baseUrl : string.

(** X1: [request] returns a value exactly when [fetch] resolved to a
    response whose status is ok and whose body parses, and the value is
    that parsed body; when [fetch] itself rejects, [request] rejects with
    the very same reason. *)
Theorem request_returns_iff (endpoint : string) (options : RequestInit) :
  (forall v, request fetch baseUrl endpoint options = Return v
             <-> exists res, fetch (build baseUrl endpoint options) = Return res
                             /\ ok res = true /\ json res = Some v)
  /\ (forall e, fetch (build baseUrl endpoint options) = Throw e ->
                request fetch baseUrl endpoint options = Throw e).
Proof.
  unfold request, settle. split.
  - intros v. split.
    + destruct (fetch _) as [res|e]; [|discriminate].
      destruct res as [o st j]; simpl. destruct o; simpl.
      * destruct j as [b|]; intros H; [|discriminate].
        injection H as ->. eexists. eauto.
      * destruct j as [b|]; simpl; [destruct (get b "detail")|]; discriminate.
    + intros (res & -> & Hok & Hj). rewrite Hok, Hj. reflexivity.
  - intros e ->. reflexivity.
Qed.

(** Each method of the service is its call performed. *)
Lemma methods_perform :
  (forall d n, getTelemetryHistory fetch baseUrl d (Some n)
               = perform fetch baseUrl (GetTelemetryHistory d n))
  /\ (forall d, getTelemetryHistory fetch baseUrl d None
                = perform fetch baseUrl (GetTelemetryHistory d 30))
  /\ (forall d, getDevice fetch baseUrl d = perform fetch baseUrl (GetDevice d))
  /\ listDevices fetch baseUrl = perform fetch baseUrl ListDevices
  /\ (forall v, registerDevice fetch baseUrl v = perform fetch baseUrl (RegisterDevice v))
  /\ (forall v, ingestTelemetry fetch baseUrl v = perform fetch baseUrl (IngestTelemetry v))
  /\ (forall d g p i, analyzeDevice fetch baseUrl d g p i
                      = perform fetch baseUrl
                          (AnalyzeDevice d (default true g) (default true p) i))
  /\ (forall v, gradeDevice fetch baseUrl v = perform fetch baseUrl (GradeDevice v))
  /\ (forall d, getPassportByDevice fetch baseUrl d
                = perform fetch baseUrl (GetPassportByDevice d))
  /\ (forall d o, createPassport fetch baseUrl d o
                  = perform fetch baseUrl (CreatePassport d o))
  /\ getStats fetch baseUrl = perform fetch baseUrl GetStats.
Proof. repeat split; reflexivity. Qed.

(** X2: every method of the service but [healthCheck] goes through
    [request]: what it hands to [fetch] goes to the base URL followed by a
    path that starts with a slash, carries exactly the header
    Content-Type: application/json, and has a body only if its method is
    POST; the methods that read (telemetry history, device, device list,
    passport, stats) set neither method nor body.  [healthCheck] alone
    hands [fetch] a bare URL, the health URL, with no header, no method
    and no body.  Each method asks [fetch] for that one request and
    nothing else. *)
Theorem every_call_well_formed (c : call) :
  ((exists path, url (sent baseUrl c) = baseUrl +:+ "/" +:+ path)
   /\ headers (config (sent baseUrl c)) = [("Content-Type", "application/json")]
   /\ (body (config (sent baseUrl c)) <> None ->
       method (config (sent baseUrl c)) = Some "POST")
   /\ (method (config (sent baseUrl c)) = None
       <-> match c with
           | GetTelemetryHistory _ _ | GetDevice _ | ListDevices
           | GetPassportByDevice _ | GetStats => True
           | _ => False
           end)
   /\ (forall f1 f2 : Request -> completion Response,
         f1 (sent baseUrl c) = f2 (sent baseUrl c) ->
         perform f1 baseUrl c = perform f2 baseUrl c))
  /\ (url (health_request baseUrl) = health_url baseUrl
      /\ headers (config (health_request baseUrl)) = []
      /\ method (config (health_request baseUrl)) = None
      /\ body (config (health_request baseUrl)) = None
      /\ (forall f1 f2 : Request -> completion Response,
            f1 (health_request baseUrl) = f2 (health_request baseUrl) ->
            healthCheck f1 baseUrl = healthCheck f2 baseUrl)).
Proof.
  split.
  - destruct c; simpl; (split; [eexists; reflexivity|]);
      (split; [reflexivity|]); (split; [intros H; try reflexivity; now elim H|]);
      (split; [split; intros H; try exact I; try discriminate H; try elim H; reflexivity|]);
      intros f1 f2 H; unfold perform; rewrite H; reflexivity.
  - repeat split. intros f1 f2 H. unfold healthCheck.
    change {| url := health_url baseUrl; config := no_options |}
      with (health_request baseUrl).
    rewrite H. reflexivity.
Qed.

End ApiServiceMore.

(** ** Strings: occurrences, first replacement, decimal rendering *)

Section StringFacts.
Import Js.

Lemma append_cons (c : Ascii.ascii) (a b : string) :
  String c a +:+ b = String c (a +:+ b).
Proof. reflexivity. Qed.

Lemma append_empty_l (b : string) : "" +:+ b = b.
Proof. reflexivity. Qed.

Lemma append_assoc (a b c : string) : (a +:+ b) +:+ c = a +:+ (b +:+ c).
Proof.
  induction a as [|x a IH]; [reflexivity|].
  rewrite !append_cons, IH. reflexivity.
Qed.

Lemma prefix_empty (s : string) : String.prefix "" s = true.
Proof. destruct s; reflexivity. Qed.

Lemma prefix_cons (a b : Ascii.ascii) (p s : string) :
  String.prefix (String a p) (String b s) = Ascii.eqb a b && String.prefix p s.
Proof.
  change (String.prefix (String a p) (String b s))
    with (if Ascii.ascii_dec a b then String.prefix p s else false).
  destruct (Ascii.ascii_dec a b) as [->|Hne].
  - rewrite Ascii.eqb_refl. reflexivity.
  - apply Ascii.eqb_neq in Hne. rewrite Hne. reflexivity.
Qed.

Lemma occurs_cons (pat : string) (c : Ascii.ascii) (s : string) :
  occurs pat (String c s) = String.prefix pat (String c s) || occurs pat s.
Proof. reflexivity. Qed.

(** A string in which the pattern does not occur is left alone. *)
Lemma replace_first_absent (pat rep s : string) :
  occurs pat s = false -> replace_first pat rep s = s.
Proof.
  induction s as [|c s IH]; simpl.
  - intros ->. reflexivity.
  - intros H. apply orb_false_iff in H as [Hp Ho].
    rewrite Hp, (IH Ho). reflexivity.
Qed.

(** A separator character followed by a string that does not hold it
    marks the place of the last separator. *)
Lemma occurs_char_middle (q : Ascii.ascii) (a b : string) :
  occurs (String q "") (a +:+ String q b) = true.
Proof.
  induction a as [|c a IH].
  - rewrite append_empty_l, occurs_cons.
    change (String.prefix (String q "") (String q b))
      with (if Ascii.ascii_dec q q then String.prefix "" b else false).
    destruct (Ascii.ascii_dec q q) as [_|Hne]; [|now elim Hne].
    rewrite prefix_empty. reflexivity.
  - rewrite append_cons, occurs_cons, IH. apply orb_true_r.
Qed.

Lemma split_at_last_char (q : Ascii.ascii) (x x' y y' : string) :
  occurs (String q "") y = false -> occurs (String q "") y' = false ->
  x +:+ String q y = x' +:+ String q y' -> x = x' /\ y = y'.
Proof.
  intros Hy Hy'. revert x'.
  induction x as [|c x IH]; intros [|c' x'] H.
  - injection H as H. auto.
  - injection H as _ H.
    rewrite H, occurs_char_middle in Hy. discriminate.
  - injection H as _ H.
    rewrite <- H, occurs_char_middle in Hy'. discriminate.
  - injection H as -> H.
    destruct (IH _ H) as [-> ->]. auto.
Qed.

(** The decimal rendering of a natural number holds digits only, and two
    numbers with the same rendering are the same number. *)
Lemma digits_no_question (d : Decimal.uint) :
  occurs "?" (NilEmpty.string_of_uint d) = false.
Proof. induction d; simpl; auto. Qed.

Lemma nat_toString_no_question (n : nat) : occurs "?" (nat_toString n) = false.
Proof.
  unfold nat_toString, NilZero.string_of_uint.
  destruct (Nat.to_uint n); try reflexivity; apply digits_no_question.
Qed.

Lemma to_uint_not_nil (n : nat) : Nat.to_uint n <> Decimal.Nil.
Proof.
  rewrite <- (DecimalNat.Unsigned.of_to n) at 1.
  rewrite DecimalNat.Unsigned.to_of.
  unfold Decimal.unorm. destruct (Decimal.nzhead (Nat.to_uint n)); discriminate.
Qed.

Lemma nat_toString_inj (n m : nat) : nat_toString n = nat_toString m -> n = m.
Proof.
  unfold nat_toString. intros H.
  apply DecimalNat.Unsigned.to_uint_inj.
  pose proof (NilZero.usu _ (to_uint_not_nil n)) as Hn.
  pose proof (NilZero.usu _ (to_uint_not_nil m)) as Hm.
  rewrite H in Hn. rewrite Hn in Hm. injection Hm as Hm. exact Hm.
Qed.

(** No occurrence of [/api/v1] starts inside a string and ends inside the
    copy of [/api/v1] that follows it. *)
Lemma api_prefix_straddle (x rest : string) :
  String.prefix "/api/v1" (x +:+ "/api/v1" +:+ rest) = true ->
  x = ""%string \/ String.prefix "/api/v1" x = true.
Proof.
  destruct x as [|c1 [|c2 [|c3 [|c4 [|c5 [|c6 [|c7 x]]]]]]]; auto; intros H; right;
    cbv [String.append] in H; rewrite !prefix_cons in H |- *;
    repeat match type of H with
           | (_ && _ = true) =>
               let Hc := fresh "Hc" in
               apply andb_true_iff in H as [Hc H];
               apply Ascii.eqb_eq in Hc; first [discriminate Hc | subst]
           end;
    rewrite prefix_empty; reflexivity.
Qed.

Lemma substring_from_0 (s : string) : substring_from 0 s = s.
Proof. unfold substring_from. rewrite Nat.sub_0_r. apply substring_all. Qed.

(** Replacing the first [/api/v1] by nothing, when nothing before it
    already holds one. *)
Lemma replace_first_api (root rest : string) :
  occurs "/api/v1" root = false ->
  replace_first "/api/v1" "" (root +:+ "/api/v1" +:+ rest) = root +:+ rest.
Proof.
  induction root as [|c root IH]; intros Hroot.
  - cbv [String.append]. simpl. rewrite prefix_empty. apply substring_from_0.
  - rewrite occurs_cons in Hroot. apply orb_false_iff in Hroot as [Hp Ho].
    change (String c root +:+ "/api/v1" +:+ rest)
      with (String c (root +:+ "/api/v1" +:+ rest)).
    change (String c root +:+ rest) with (String c (root +:+ rest)).
    change (replace_first "/api/v1" "" (String c (root +:+ "/api/v1" +:+ rest)))
      with (if String.prefix "/api/v1" (String c (root +:+ "/api/v1" +:+ rest))
            then "" +:+ substring_from (String.length "/api/v1")
                          (String c (root +:+ "/api/v1" +:+ rest))
            else String c (replace_first "/api/v1" "" (root +:+ "/api/v1" +:+ rest))).
    destruct (String.prefix "/api/v1" (String c (root +:+ "/api/v1" +:+ rest))) eqn:Hpre.
    + change (String c (root +:+ "/api/v1" +:+ rest))
        with (String c root +:+ "/api/v1" +:+ rest) in Hpre.
      apply api_prefix_straddle in Hpre as [Hnil|Hpre]; [discriminate|congruence].
    + rewrite (IH Ho). reflexivity.
Qed.

End StringFacts.

(** ** The API client: the requests it builds *)

Section ApiServiceWire.
Import Js ApiService.

Variable fetch : Request -> completion Response.
Variable baseUrl : string.

Lemma analyze_params_no_question (g p : bool) : occurs "?" (analyze_params g p) = false.
Proof. destruct g, p; reflexivity. Qed.

Lemma days_no_question (n : nat) : occurs "?" ("days=" +:+ nat_toString n) = false.
Proof.
  cbv [String.append]. rewrite !occurs_cons, !prefix_cons. simpl.
  apply nat_toString_no_question.
Qed.

Lemma telemetry_endpoint_inj (d d' : string) (n n' : nat) :
  d +:+ "?days=" +:+ nat_toString n = d' +:+ "?days=" +:+ nat_toString n' ->
  d = d' /\ n = n'.
Proof.
  intros H.
  apply (split_at_last_char _ d d' ("days=" +:+ nat_toString n)
           ("days=" +:+ nat_toString n')) in H;
    [|apply days_no_question|apply days_no_question].
  destruct H as [-> H]. apply append_inj_l, nat_toString_inj in H. auto.
Qed.

Lemma analyze_endpoint_inj (d d' : string) (g p g' p' : bool) :
  d +:+ "?" +:+ analyze_params g p = d' +:+ "?" +:+ analyze_params g' p' ->
  d = d' /\ g = g' /\ p = p'.
Proof.
  intros H.
  apply (split_at_last_char _ d d' (analyze_params g p) (analyze_params g' p')) in H;
    [|apply analyze_params_no_question|apply analyze_params_no_question].
  destruct H as [-> H]. apply analyze_params_inj in H. tauto.
Qed.

(** X3: the URL, the method and the headers a call hands to [fetch] tell
    which method of the service was called and every argument it puts into
    the URL (the device id, the days, the two analysis flags): two calls
    agree on them exactly when they are the same method with the same such
    arguments, although device ids are spliced into the path as they are.
    What [healthCheck] hands to [fetch] differs from all of them. *)
Theorem request_line_determines_route :
  (forall c1 c2 : call,
      request_line (sent baseUrl c1) = request_line (sent baseUrl c2)
      <-> route_of c1 = route_of c2)
  /\ (forall c : call,
        request_line (health_request baseUrl) <> request_line (sent baseUrl c)).
Proof.
  split; [|intros c H; unfold request_line in H; destruct c; discriminate H].
  intros c1 c2. split.
  - unfold request_line, sent, build. intros H. injection H as Hurl Hm.
    apply append_inj_l in Hurl.
    destruct c1, c2; simpl in Hurl, Hm;
      try discriminate Hurl; try discriminate Hm; try reflexivity.
    + apply append_inj_l in Hurl. apply telemetry_endpoint_inj in Hurl as [-> ->].
      reflexivity.
    + apply append_inj_l in Hurl. subst. reflexivity.
    + unfold analyze_endpoint in Hurl. apply append_inj_l in Hurl.
      apply analyze_endpoint_inj in Hurl as (-> & -> & ->). reflexivity.
    + apply append_inj_l in Hurl. subst. reflexivity.
  - unfold request_line, sent, build. intros H.
    destruct c1, c2; simpl in H; try discriminate H; try reflexivity;
      injection H; intros; subst; reflexivity.
Qed.

(** X4: the health check goes to the base URL with its first [/api/v1]
    taken out, followed by [/health]: for a base URL [root/api/v1...]
    whose [root] holds no [/api/v1] that is [root.../health]; for a base
    URL that holds no [/api/v1] at all it is the base URL itself followed
    by [/health]. *)
Theorem health_url_strips_api_prefix (root rest : string) :
  (occurs "/api/v1" root = false ->
   health_url (root +:+ "/api/v1" +:+ rest) = root +:+ rest +:+ "/health")
  /\ (occurs "/api/v1" baseUrl = false ->
      health_url baseUrl = baseUrl +:+ "/health").
Proof.
  unfold health_url. split; intros H.
  - rewrite (replace_first_api _ _ H). apply append_assoc.
  - rewrite (replace_first_absent _ _ _ H). reflexivity.
Qed.

(** X5: the dashboard shows a live connection exactly when the request to
    the health URL resolved with an ok status and a body that parses as
    JSON; a rejected request, a non-ok status or an unparsable body all
    show it offline, and nothing else on the dashboard changes. *)
Theorem checkConnection_live_iff (st : Dashboard.State) :
  let st' := Dashboard.checkConnection (healthCheck fetch baseUrl) st in
  (Dashboard.connected st' = true
   <-> exists r v, fetch {| url := health_url baseUrl; config := no_options |} = Return r
                   /\ ok r = true /\ json r = Some v)
  /\ Dashboard.telemetryData st' = Dashboard.telemetryData st
  /\ Dashboard.metrics st' = Dashboard.metrics st
  /\ Dashboard.loading st' = Dashboard.loading st
  /\ Dashboard.error st' = Dashboard.error st.
Proof.
  simpl. split; [|repeat split].
  unfold healthCheck.
  destruct (fetch _) as [r|e].
  - destruct (ok r) eqn:Hok; simpl.
    + destruct (json r) as [v|] eqn:Hj; split; intros H; try discriminate H.
      * exists r, v. auto.
      * reflexivity.
      * destruct H as (r' & v' & Hr & _ & Hj'). injection Hr as <-. congruence.
    + split; intros H; [discriminate|].
      destruct H as (r' & v' & Hr & Hok' & _). injection Hr as <-. congruence.
  - split; intros H; [discriminate|].
    destruct H as (r' & v' & Hr & _). discriminate Hr.
Qed.

End ApiServiceWire.

Lemma health_url_strips_api_prefix_witness :
  ApiService.health_url "http://localhost:8000/api/v1" = "http://localhost:8000/health"%string.
Proof.
  exact (proj1 (health_url_strips_api_prefix "" "http://localhost:8000" "") eq_refl).
Defined.

(** ** The grading scanner as a whole *)

Section GradingScannerMore.
Import Js GradingScanner.

(** X6: after [captureAndAnalyze] the scanning flag is down whenever a 2d
    context was there, whether the backend answered or failed; it is up
    exactly when the refs were set and the canvas gave no context (the
    flag is raised and nothing lowers it), or when the handler returned at
    once for lack of refs and the flag was up before. *)
Theorem captureAndAnalyze_scanning_flag
    (refs ctx : bool) (reply : completion value) (st : State) :
  isScanning (captureAndAnalyze refs ctx reply st) = true
  <-> (refs = true /\ ctx = false) \/ (refs = false /\ isScanning st = true).
Proof.
  unfold captureAndAnalyze.
  destruct refs, ctx; simpl; try destruct reply; simpl;
    intuition discriminate.
Qed.

(** X7: a result appears only out of an answer of the backend that holds
    a grading: whenever a run that got past the refs leaves a result, the
    context was there, the call returned, and the result is the one built
    from its reply; a failed call leaves no result, puts up the backend
    error and keeps the camera as it was. *)
Theorem captureAndAnalyze_result_only_from_reply
    (ctx : bool) (reply : completion value) (st : State) :
  (forall r, result (captureAndAnalyze true ctx reply st) = Some r ->
             ctx = true
             /\ exists v, reply = Return v
                          /\ truthy (get_opt v "grading") = true
                          /\ r = result_of v)
  /\ (forall e, ctx = true -> reply = Throw e ->
        result (captureAndAnalyze true ctx reply st) = None
        /\ error (captureAndAnalyze true ctx reply st)
           = Some "Backend grading failed. Ensure backend is running on port 8000."%string
        /\ stream (captureAndAnalyze true ctx reply st) = stream st).
Proof.
  unfold captureAndAnalyze, analysed. split.
  - intros r. destruct ctx; simpl; [|discriminate].
    destruct reply as [v|e]; simpl; [|discriminate].
    destruct (truthy (get_opt v "grading")) eqn:Hg; [|discriminate].
    intros H. injection H as <-. split; [reflexivity|]. exists v. auto.
  - intros e -> ->. simpl. auto.
Qed.

Lemma captureAndAnalyze_result_only_from_reply_witness :
  result (captureAndAnalyze true true (Throw NetworkFailure) initial) = None.
Proof.
  exact (proj1 (proj2 (captureAndAnalyze_result_only_from_reply true
                         (Throw NetworkFailure) initial) _ eq_refl eq_refl)).
Defined.

Lemma click_keeps_exclusive (st : State) (a : action) :
  clickable st a = true ->
  (stream st = true -> result st = None) ->
  stream (click st a) = true -> result (click st a) = None.
Proof.
  destruct st as [s sc r e]. unfold clickable, render. simpl.
  destruct a as [granted|ctx reply| |granted]; simpl.
  - destruct granted; simpl; destruct s, r; simpl; try discriminate; auto.
  - unfold captureAndAnalyze. destruct s; simpl; [|discriminate].
    destruct ctx; simpl; [|reflexivity].
    destruct reply; simpl; [discriminate|reflexivity].
  - discriminate.
  - unfold scanAgain, startCamera. destruct granted; reflexivity.
Qed.

Lemma session_keeps_exclusive (clicks : list action) (s0 st : State) :
  (stream s0 = true -> result s0 = None) ->
  session s0 clicks = Some st ->
  stream st = true -> result st = None.
Proof.
  revert s0. induction clicks as [|a clicks IH]; simpl; intros s0 H0 Hs.
  - injection Hs as <-. exact H0.
  - destruct (clickable s0 a) eqn:Hc; [|discriminate].
    apply (IH (click s0 a)); [|exact Hs].
    apply click_keeps_exclusive; assumption.
Qed.

(** X8: through any session of clicks (each handler run to its end before
    the next click) the video and the result card are never on screen
    together, so exactly one of the Initialize Scanner card, the video and
    the result card is rendered. *)
Theorem session_one_block (clicks : list action) (st : State) :
  session initial clicks = Some st ->
  (video (render st) && result_card (render st) = false)
  /\ (start_card (render st) = true \/ video (render st) = true
      \/ result_card (render st) = true)
  /\ (start_card (render st) = true ->
      video (render st) = false /\ result_card (render st) = false).
Proof.
  intros Hs.
  assert (Hinv : stream st = true -> result st = None).
  { apply (session_keeps_exclusive clicks initial); [reflexivity | exact Hs]. }
  unfold render. simpl.
  destruct (stream st); simpl.
  - rewrite (Hinv eq_refl). simpl. split; [reflexivity|]. split; [auto|discriminate].
  - split; [reflexivity|]. destruct (result st); simpl; auto.
Qed.

Lemma session_one_block_witness :
  exists st,
    session initial
      [StartGrading true;
       AnalyzeCondition true
         (Return (VObj [("grading", VObj [("grade", VStr "Good")])]));
       ScanAgain true; Cancel] = Some st
    /\ video (render st) && result_card (render st) = false.
Proof.
  eexists. split; [reflexivity|].
  exact (proj1 (session_one_block
                  [StartGrading true;
                   AnalyzeCondition true
                     (Return (VObj [("grading", VObj [("grade", VStr "Good")])]));
                   ScanAgain true; Cancel] _ eq_refl)).
Defined.

(** X9: once a click on Analyze Condition found no 2d context, the
    scanning flag stays up for the rest of the session (each handler run
    to its end before the next click) and Analyze Condition can never be
    clicked again: every later click that the page allows leaves the flag
    up. *)
Theorem scanning_flag_stuck (clicks : list action) (s0 st : State) :
  isScanning s0 = true ->
  session s0 clicks = Some st ->
  isScanning st = true
  /\ (forall ctx reply, clickable st (AnalyzeCondition ctx reply) = false)
  /\ Forall (fun a => match a with AnalyzeCondition _ _ => False | _ => True end) clicks.
Proof.
  revert s0. induction clicks as [|a clicks IH]; simpl; intros s0 H0 Hs.
  - injection Hs as <-. split; [exact H0|]. split; [|constructor].
    intros ctx reply. unfold clickable. rewrite H0. apply andb_false_r.
  - destruct (clickable s0 a) eqn:Hc; [|discriminate].
    assert (Ha : match a with AnalyzeCondition _ _ => False | _ => True end
                 /\ isScanning (click s0 a) = true).
    { destruct a as [granted|ctx reply| |granted]; simpl in *.
      - split; [exact I|]. unfold startCamera. destruct granted; exact H0.
      - rewrite H0, andb_false_r in Hc. discriminate.
      - split; [exact I | exact H0].
      - split; [exact I|]. unfold scanAgain, startCamera. destruct granted; exact H0. }
    destruct Ha as [Ha Hflag].
    destruct (IH _ Hflag Hs) as (H1 & H2 & H3).
    split; [exact H1|]. split; [exact H2|]. constructor; assumption.
Qed.

Lemma scanning_flag_stuck_witness :
  exists st,
    session (click (click initial (StartGrading true))
               (AnalyzeCondition false (Throw NetworkFailure)))
      [Cancel; StartGrading true] = Some st
    /\ isScanning st = true.
Proof.
  eexists. split; [reflexivity|].
  exact (proj1 (scanning_flag_stuck [Cancel; StartGrading true]
                  (click (click initial (StartGrading true))
                     (AnalyzeCondition false (Throw NetworkFailure)))
                  _ eq_refl eq_refl)).
Defined.

(** X10: an error banner, once up, is taken down only by a camera that was
    granted (through Start Grading or Scan Again): a successful analysis
    leaves a stale banner standing beside its result, and so do Cancel and
    a refused camera. *)
Theorem error_banner_cleared_only_by_camera (st : State) (a : action) :
  error_banner (render st) = true ->
  (error_banner (render (click st a)) = false
   <-> a = StartGrading true \/ a = ScanAgain true).
Proof.
  unfold render. simpl. destruct st as [s sc r e]. simpl.
  destruct e as [msg|]; simpl; [intros _|discriminate].
  destruct a as [granted|ctx reply| |granted]; simpl.
  - destruct granted; simpl; split; auto; try discriminate.
    intros [H|H]; discriminate H.
  - unfold captureAndAnalyze. split; [|intros [H|H]; discriminate H].
    destruct s; simpl; [|discriminate]. destruct ctx; simpl; [|discriminate].
    destruct reply; simpl; discriminate.
  - split; [discriminate | intros [H|H]; discriminate H].
  - destruct granted; simpl; split; auto; try discriminate.
    intros [H|H]; discriminate H.
Qed.

Lemma error_banner_cleared_only_by_camera_witness :
  error_banner
    (render (click {| stream := true; isScanning := false; result := None;
                      error := Some "Camera permission denied or not available."%string |}
               (AnalyzeCondition true
                  (Return (VObj [("grading", VObj [("grade", VStr "Good")])])))))
  <> false.
Proof.
  intros H.
  destruct (proj1 (error_banner_cleared_only_by_camera
                     {| stream := true; isScanning := false; result := None;
                        error := Some "Camera permission denied or not available."%string |}
                     (AnalyzeCondition true
                        (Return (VObj [("grading", VObj [("grade", VStr "Good")])])))
                     eq_refl) H) as [H'|H']; discriminate H'.
Defined.

End GradingScannerMore.

(** ** The product passport as a whole *)

Section ProductPassportMore.
Import Js ProductPassport.

Variable getDevice : string -> completion value.
Variable analyzeDevice : string -> option bool -> option bool -> option (list string)
                         -> completion value.

(** X11: [fetchDeviceData] ends with the spinner off and with either a
    device or an error, never both and never neither: a device exactly
    when [getDevice] returned a truthy value; 'Device not found...' when it
    returned a falsy one; 'Backend connection failed...' when it threw. *)
Theorem fetchDeviceData_device_or_error (deviceId : string) :
  let st := fetchDeviceData getDevice analyzeDevice deviceId in
  loading st = false
  /\ (device st <> None <-> error st = None)
  /\ (device st <> None
      <-> exists v, getDevice deviceId = Return v /\ truthy v = true)
  /\ (error st = Some "Device not found. Register a device first."%string
      <-> exists v, getDevice deviceId = Return v /\ truthy v = false)
  /\ (error st
      = Some "Backend connection failed. Register a device and add telemetry data first."%string
      <-> exists e, getDevice deviceId = Throw e).
Proof.
  unfold fetchDeviceData.
  destruct (getDevice deviceId) as [v|e]; [destruct (truthy v) eqn:Hv|]; simpl;
    (split; [reflexivity|]);
    repeat split; try discriminate; try congruence; eauto;
    try (intros (x & Hx & Ht); congruence);
    try (intros (x & Hx); congruence).
Qed.

(** X12: a failing analysis never keeps the passport from being shown: if
    the device is there, it is presented whatever the analysis call did;
    the analysis decides nothing but the grade and the value, which read
    'Not Graded' and 0 when the analysis threw or returned null. *)
Theorem fetchDeviceData_absorbs_analysis_failure (deviceId : string) (v : value)
    (Hget : getDevice deviceId = Return v) (Hv : truthy v = true) :
  exists d,
    device (fetchDeviceData getDevice analyzeDevice deviceId) = Some d
    /\ id d = or (get_opt v "id") (VStr deviceId)
    /\ model d = or (get_opt v "model") (VStr "Unknown Model")
    /\ serialNumber d = or (get_opt v "serialNumber") (VStr "N/A")
    /\ status d = or (get_opt v "status") (VStr "unknown")
    /\ ((analyzeDevice deviceId (Some true) (Some true) None = Return VNull
         \/ exists e, analyzeDevice deviceId (Some true) (Some true) None = Throw e) ->
        currentGrade d = VStr "Not Graded" /\ currentValue d = VNum 0).
Proof.
  unfold fetchDeviceData. rewrite Hget, Hv. simpl.
  eexists. split; [reflexivity|]. simpl. repeat split;
    destruct H as [H|[e H]]; rewrite H; reflexivity.
Qed.

End ProductPassportMore.

Lemma fetchDeviceData_absorbs_analysis_failure_witness :
  exists d,
    ProductPassport.device
      (ProductPassport.fetchDeviceData
         (ApiService.getDevice Samples.backend Samples.base)
         (fun _ _ _ _ => Js.Throw Js.NetworkFailure) Samples.device_id) = Some d
    /\ ProductPassport.currentGrade d = Js.VStr "Not Graded".
Proof.
  destruct (fetchDeviceData_absorbs_analysis_failure
              (ApiService.getDevice Samples.backend Samples.base)
              (fun _ _ _ _ => Js.Throw Js.NetworkFailure)
              Samples.device_id Samples.device_json eq_refl eq_refl)
    as (d & Hd & _ & _ & _ & _ & Hfail).
  exists d. split; [exact Hd|].
  exact (proj1 (Hfail (or_intror (ex_intro _ Js.NetworkFailure eq_refl)))).
Defined.

(** ** The telemetry dashboard *)

Section DashboardFacts.
Import Js Dashboard.

Variable monthLabel : value -> string.
Variable thermal : value -> value.

(** The chart has one point per snapshot, each at its index, and it is
    there exactly when no snapshot is [null]. *)
Lemma chartFrom_points (items : list value) (k : nat) (points : list ChartData) :
  chartFrom monthLabel thermal k items = Return points ->
  length points = length items
  /\ forall i p, nth_error points i = Some p ->
                 marketValue p = 1200 - Z.of_nat (k + i) * 50.
Proof.
  revert k points. induction items as [|item items IH]; simpl; intros k points H.
  - injection H as <-. split; [reflexivity|]. intros [|i] p Hp; discriminate Hp.
  - unfold chartPoint in H.
    destruct (get item "timestamp") as [ts|e]; [|discriminate].
    destruct (chartFrom monthLabel thermal (S k) items) as [rest|e] eqn:Hrest;
      [|discriminate].
    injection H as <-. destruct (IH _ _ Hrest) as [Hlen Hnth].
    split; [simpl; now rewrite Hlen|].
    intros [|i] p Hp; simpl in Hp.
    + injection Hp as <-. simpl. rewrite Nat.add_0_r. reflexivity.
    + rewrite (Hnth _ _ Hp). f_equal. f_equal. lia.
Qed.





End DashboardFacts.

Section DashboardChart.
Import Js Dashboard.

Variable monthLabel : value -> string.
Variable thermal : value -> value.

Lemma fetchTelemetryData_shown (reply : completion value) (st : State) :
  error (fetchTelemetryData monthLabel thermal reply st) = None ->
  exists first rest points,
    reply = Return (VArr (first :: rest))
    /\ chartFrom monthLabel thermal 0 (first :: rest) = Return points
    /\ telemetryData (fetchTelemetryData monthLabel thermal reply st) = points
    /\ m_marketValue (metrics (fetchTelemetryData monthLabel thermal reply st))
       = 1200 - Z.of_nat (length (first :: rest)) * 50.
Proof.
  unfold fetchTelemetryData.
  destruct reply as [h|e]; [|discriminate].
  destruct (negb (truthy h) || length_is_zero h); [discriminate|].
  destruct h as [| |b|q|s|[|first rest]|fs]; try discriminate.
  destruct (chartFrom monthLabel thermal 0 (first :: rest)) as [points|e] eqn:Hc;
    [|discriminate].
  intros _. exists first, rest, points. auto.
Qed.

Lemma fetchTelemetryData_error_resets (reply : completion value) (st : State)
    (msg : string) :
  error (fetchTelemetryData monthLabel thermal reply st) = Some msg ->
  telemetryData (fetchTelemetryData monthLabel thermal reply st) = []
  /\ metrics (fetchTelemetryData monthLabel thermal reply st) = no_metrics.
Proof.
  unfold fetchTelemetryData.
  destruct reply as [h|e]; [|auto].
  destruct (negb (truthy h) || length_is_zero h); [auto|].
  destruct h as [| |b|q|s|[|first rest]|fs]; auto.
  destruct (chartFrom monthLabel thermal 0 (first :: rest)); [discriminate|auto].
Qed.

Lemma fetchTelemetryData_header_value (reply : completion value) (st : State) :
  error (fetchTelemetryData monthLabel thermal reply st) = None ->
  m_marketValue (metrics (fetchTelemetryData monthLabel thermal reply st))
  = 1200 - Z.of_nat (length (telemetryData
                               (fetchTelemetryData monthLabel thermal reply st))) * 50.
Proof.
  intros Herr.
  destruct (fetchTelemetryData_shown _ _ Herr)
    as (first & rest & points & _ & Hc & Hdata & Hval).
  rewrite Hdata, Hval.
  destruct (chartFrom_points monthLabel thermal _ _ _ Hc) as [Hlen _].
  rewrite Hlen. reflexivity.
Qed.

(** X14: when the chart is shown it has one point per snapshot of the
    reply, in the order of the reply; the market value of the point at
    index [i] is 1200 - 50 i, so it falls by 50 from each point to the
    next; and the Buy-Back Value in the header is 1200 - 50 n for a reply
    of n snapshots, 50 below the last point of the chart and below every
    point. *)
Theorem chart_market_values (reply : completion value) (st : State) :
  let st' := fetchTelemetryData monthLabel thermal reply st in
  error st' = None ->
  (exists items, reply = Return (VArr items)
                 /\ length (telemetryData st') = length items)
  /\ (forall i p, nth_error (telemetryData st') i = Some p ->
                  marketValue p = 1200 - Z.of_nat i * 50
                  /\ m_marketValue (metrics st') < marketValue p)
  /\ m_marketValue (metrics st')
     = 1200 - Z.of_nat (length (telemetryData st')) * 50.
Proof.
  intros st' Herr. unfold st' in *.
  destruct (fetchTelemetryData_shown _ _ Herr)
    as (first & rest & points & -> & Hc & Hdata & Hval).
  rewrite Hdata, Hval.
  destruct (chartFrom_points monthLabel thermal _ _ _ Hc) as [Hlen Hnth].
  split; [eauto|]. split.
  - intros i p Hp. rewrite (Hnth _ _ Hp). simpl (0 + i)%nat. split; [reflexivity|].
    assert (i < length points)%nat by (apply nth_error_Some; congruence).
    rewrite Hlen in H. lia.
  - rewrite Hlen. reflexivity.
Qed.

(** X15: the Buy-Back Value card reads 'Stable' with the status good
    exactly for a chart of one to four snapshots; with five or more, and
    whenever there is an error (the value is then 0), it reads
    '-7.5% drop alert' with the status warning; it never has the status
    danger; and the value shown is negative exactly from twenty-five
    snapshots on. *)
Theorem buy_back_card (reply : completion value) (st : State) :
  let st' := fetchTelemetryData monthLabel thermal reply st in
  let v := m_marketValue (metrics st') in
  (buyBackStatus v = good /\ buyBackChange v = "Stable"%string
   <-> error st' = None /\ (length (telemetryData st') <= 4)%nat)
  /\ (buyBackStatus v = warning /\ buyBackChange v = "-7.5% drop alert"%string
      <-> error st' <> None \/ (5 <= length (telemetryData st'))%nat)
  /\ (buyBackStatus v = good <-> buyBackChange v = "Stable"%string)
  /\ (buyBackStatus v = warning <-> buyBackChange v = "-7.5% drop alert"%string)
  /\ buyBackStatus v <> danger
  /\ (v < 0 <-> error st' = None /\ (25 <= length (telemetryData st'))%nat).
Proof.
  intros st' v. unfold v, st'.
  assert (Hcard : forall z,
             (z < 1000 -> buyBackStatus z = warning
                          /\ buyBackChange z = "-7.5% drop alert"%string)
             /\ (1000 <= z -> buyBackStatus z = good
                               /\ buyBackChange z = "Stable"%string)).
  { intros z. unfold buyBackChange, buyBackStatus.
    destruct (Z.ltb_spec z 1000); split; intros; try lia; auto. }
  assert (Hlink : forall z,
             (buyBackStatus z = good <-> buyBackChange z = "Stable"%string)
             /\ (buyBackStatus z = warning
                 <-> buyBackChange z = "-7.5% drop alert"%string)
             /\ buyBackStatus z <> danger).
  { intros z. unfold buyBackChange, buyBackStatus.
    destruct (z <? 1000); repeat split; intros H; try discriminate H; reflexivity. }
  destruct (error (fetchTelemetryData monthLabel thermal reply st)) as [msg|] eqn:Herr.
  - destruct (fetchTelemetryData_error_resets _ _ _ Herr) as [_ Hm].
    rewrite Hm. simpl m_marketValue.
    destruct (Hcard 0) as [Hw _]. destruct (Hw ltac:(lia)) as [Hs Hc].
    split; [|split; [|split; [|split; [|split]]]]; try apply Hlink.
    + rewrite Hs. split; [intros [H _]; discriminate H | intros [H _]; discriminate H].
    + split; [intros _; left; discriminate | intros _; auto].
    + split; [lia | intros [H _]; discriminate H].
  - rewrite (fetchTelemetryData_header_value _ _ Herr).
    set (n := length (telemetryData (fetchTelemetryData monthLabel thermal reply st))).
    destruct (Hcard (1200 - Z.of_nat n * 50)) as [Hw Hg].
    split; [|split; [|split; [|split; [|split]]]]; try apply Hlink.
    + split.
      * intros [Hs _]. split; [reflexivity|].
        destruct (Z.lt_ge_cases (1200 - Z.of_nat n * 50) 1000) as [Hlt|Hge]; [|lia].
        destruct (Hw Hlt) as [Hs' _]. rewrite Hs' in Hs. discriminate Hs.
      * intros [_ Hn]. apply Hg. lia.
    + split.
      * intros [Hs _]. right.
        destruct (Z.lt_ge_cases (1200 - Z.of_nat n * 50) 1000) as [Hlt|Hge]; [lia|].
        destruct (Hg Hge) as [Hs' _]. rewrite Hs' in Hs. discriminate Hs.
      * intros [H|Hn]; [now elim H|]. apply Hw. lia.
    + split; [intros H; split; [reflexivity|lia] | intros [_ H]; lia].
Qed.

(** X16: the two effects the dashboard starts when it mounts write
    disjoint parts of its state, so the order in which the telemetry
    request and the health check settle makes no difference. *)
Theorem mount_effects_commute
    (reply health : completion value) (st : State) :
  checkConnection health (fetchTelemetryData monthLabel thermal reply st)
  = fetchTelemetryData monthLabel thermal reply (checkConnection health st).
Proof.
  unfold checkConnection, fetchTelemetryData, no_data, failed.
  destruct reply as [h|e]; [|reflexivity].
  destruct (negb (truthy h) || length_is_zero h); [reflexivity|].
  destruct h as [| |b|q|s|[|first rest]|fs]; try reflexivity.
  destruct (chartFrom monthLabel thermal 0 (first :: rest)); reflexivity.
Qed.

End DashboardChart.

Lemma chart_market_values_witness :
  exists p,
    nth_error
      (Dashboard.telemetryData
         (Dashboard.fetchTelemetryData (fun _ => "Jan"%string) (fun t => t)
            (Js.Return (Js.VArr [Js.VObj [("battery_health_percentage", Js.VNum (93 # 1))];
                                 Js.VObj [("battery_health_percentage", Js.VNum (94 # 1))]]))
            {| Dashboard.telemetryData := []; Dashboard.metrics := Dashboard.no_metrics;
               Dashboard.loading := true; Dashboard.error := None;
               Dashboard.connected := false |})) 1 = Some p
    /\ Dashboard.marketValue p = 1150.
Proof.
  eexists. split; [reflexivity|].
  exact (proj1 (proj1 (proj2 (chart_market_values (fun _ => "Jan"%string) (fun t => t)
                                (Js.Return (Js.VArr [Js.VObj [("battery_health_percentage", Js.VNum (93 # 1))];
                                                     Js.VObj [("battery_health_percentage", Js.VNum (94 # 1))]]))
                                {| Dashboard.telemetryData := [];
                                   Dashboard.metrics := Dashboard.no_metrics;
                                   Dashboard.loading := true; Dashboard.error := None;
                                   Dashboard.connected := false |} eq_refl))
                  1%nat _ eq_refl)).
Defined.

Lemma request_returns_iff_witness :
  ApiService.request (fun _ => Js.Throw Js.NetworkFailure) Samples.base "/stats"
    ApiService.no_options
  = Js.Throw Js.NetworkFailure.
Proof.
  exact (proj2 (request_returns_iff (fun _ => Js.Throw Js.NetworkFailure) Samples.base
                  "/stats" ApiService.no_options) _ eq_refl).
Defined.

Lemma every_call_well_formed_witness :
  ApiService.method
    (ApiService.config
       (ApiService.sent Samples.base
          (ApiService.CreatePassport Samples.device_id "9xQeWvG816bUx9EPjHmaT23yvVM2ZWbrrpZb9PusVFin")))
  = Some "POST"%string.
Proof.
  apply (proj1 (proj2 (proj2 (proj1 (every_call_well_formed Samples.base
                                       (ApiService.CreatePassport Samples.device_id
                                          "9xQeWvG816bUx9EPjHmaT23yvVM2ZWbrrpZb9PusVFin")))))).
  discriminate.
Defined.

